(** * AgentGate Python SDK: a shallow embedding of the client

    The development follows the three modules of [sdk/python/src/agentgate]:
    - [types.py]  : the enumerations and the three response decoders,
    - [errors.py] : [AgentGateError],
    - [client.py] : the request pipeline ([_request]) with its retry loop,
      and the public operations built on it.

    Python values that come out of [resp.json()] are kept loosely typed, as the
    SDK keeps them ([Any]): a decoder stores whatever the mapping binds to a
    key.  Dictionaries are finite maps with string keys.  The HTTP transport
    ([httpx.AsyncClient.request]) is a parameter of the client: a function from
    the number of calls made so far and the request to the outcome of the call.
    Effects (the calls observed by the transport, the back-off sleeps) are
    threaded through an explicit state, and Python exceptions are a result
    type.  Python floats are the kernel's binary64 floats.  Logging is left
    out, and so is [AgentGateClientSync], which only runs these operations on
    an event loop of its own. *)

From Stdlib Require Import ZArith Ascii String PrimFloat.
From stdpp Require Import base option list strings gmap pretty sorting.

#[local] Set Warnings "-register-all".
#[local] Open Scope string_scope.
#[local] Open Scope nat_scope.
#[local] Open Scope list_scope.

(** ** Python values *)

(** What [json.loads] can produce; [VNone] is both JSON [null] and Python
    [None]. *)
Inductive value :=
| VNone
| VBool (b : bool)
| VInt (n : Z)
| VFloat (f : float)
| VStr (s : string)
| VList (l : list value)
| VDict (d : gmap string value).

(** [type(v).__name__], as it appears in Python's error messages. *)
Definition type_name (v : value) : string :=
  match v with
  | VNone => "NoneType"
  | VBool _ => "bool"
  | VInt _ => "int"
  | VFloat _ => "float"
  | VStr _ => "str"
  | VList _ => "list"
  | VDict _ => "dict"
  end.

(** [d.get(k, dflt)]: the default is used only when the key is absent. *)
Definition dict_get (d : gmap string value) (k : string) (dflt : value) : value :=
  default dflt (d !! k).

(** [v in (s1, s2, ...)] for a tuple of string literals: only a [str] compares
    equal to a [str]. *)
Definition in_strs (v : value) (ss : list string) : bool :=
  match v with
  | VStr s => bool_decide (s ∈ ss)
  | _ => false
  end.

(** ** types.py *)

Inductive Decision := APPROVED | DENIED | PENDING | EXPIRED.

Inductive Urgency := LOW | NORMAL | HIGH | CRITICAL.

Definition Urgency_value (u : Urgency) : string :=
  match u with
  | LOW => "low"
  | NORMAL => "normal"
  | HIGH => "high"
  | CRITICAL => "critical"
  end.

Inductive FallbackBehavior := ALLOW | DENY.

Module ApprovalRequest.

Record t := mk {
  id : value;
  action : value;
  status : value;
  decision : value;
  params : value;
  context : value;
  urgency : value;
  decided_by : value;
  decided_at : value;
  expires_at : value;
  created_at : value;
  updated_at : value;
  raw : value
}.

Definition from_response (data : gmap string value) : t :=
  {| id := dict_get data "id" (VStr "");
     action := dict_get data "action" (VStr "");
     status := dict_get data "status" (VStr "pending");
     decision := dict_get data "decision" VNone;
     params := dict_get data "params" (VDict ∅);
     context := dict_get data "context" (VDict ∅);
     urgency := dict_get data "urgency" (VStr "normal");
     decided_by := dict_get data "decidedBy" VNone;
     decided_at := dict_get data "decidedAt" VNone;
     expires_at := dict_get data "expiresAt" VNone;
     created_at := dict_get data "createdAt" VNone;
     updated_at := dict_get data "updatedAt" VNone;
     raw := VDict data |}.

End ApprovalRequest.

Module Policy.

Record t := mk {
  id : value;
  name : value;
  rules : value;
  priority : value;
  enabled : value;
  raw : value
}.

Definition from_response (data : gmap string value) : t :=
  {| id := dict_get data "id" (VStr "");
     name := dict_get data "name" (VStr "");
     rules := dict_get data "rules" (VList []);
     priority := dict_get data "priority" (VInt 0);
     enabled := dict_get data "enabled" (VBool true);
     raw := VDict data |}.

End Policy.

Module DecisionResult.

Record t := mk {
  id : value;
  status : value;
  decision : value;
  is_decided : bool
}.

Definition from_response (data : gmap string value) : t :=
  let status := dict_get data "status" (VStr "pending") in
  let decision := dict_get data "decision" VNone in
  {| id := dict_get data "id" (VStr "");
     status := status;
     decision := decision;
     is_decided := in_strs status ["approved"; "denied"; "expired"] |}.

End DecisionResult.

(** ** errors.py *)

Module AgentGateError.

Record t := mk {
  message : value;
  status_code : option Z;
  error_type : value;
  response_data : value;
  is_connectivity_error : bool
}.

End AgentGateError.

(** ** client.py: the transport and the effects *)

(** The arguments of [self._http.request(method, path, json=json_data)]. *)
Record http_request := {
  method : string;
  path : string;
  json_data : value
}.

(** [httpx.Response], as far as the client reads it: [status_code], and
    [json()], which either raises (with [str(exc)] on the left) or yields the
    decoded body. *)
Module Response.

Record t := mk {
  status_code : Z;
  json : string + value
}.

End Response.

(** What one call of the transport does. [ConnectFailed] stands for the three
    classes the retry loop names ([httpx.ConnectError],
    [httpx.TimeoutException], [httpx.ConnectTimeout]); [OtherFailure] for any
    other [Exception] the call raises. Both carry [str(exc)]. *)
Inductive outcome :=
| Responded (resp : Response.t)
| ConnectFailed (msg : string)
| OtherFailure (msg : string).

(** The transport collaborator: the outcome of the call number [n] (counted
    from 0 over the life of the transport) for a given request. *)
Definition transport := nat → http_request → outcome.

(** The effects a caller can observe: the requests the transport has seen, in
    order, and the durations handed to [asyncio.sleep], in order. *)
Record world := {
  sent : list http_request;
  slept : list float
}.

Definition call_count (w : world) : nat := length (sent w).

(** Exceptions in flight. [EOther cls msg] is an exception of class [cls]
    (a subclass of [Exception] that is neither [AgentGateError] nor one of the
    three connect/timeout classes) with [str(exc) = msg]. *)
Inductive exn :=
| EAgentGate (e : AgentGateError.t)
| EConnect (msg : string)
| EOther (cls msg : string).

Inductive result (A : Type) :=
| Ok (a : A)
| Raise (x : exn).
Arguments Ok {A} a.
Arguments Raise {A} x.

Definition M (A : Type) : Type := world → result A * world.

Definition ret {A} (a : A) : M A := fun w => (Ok a, w).
Definition raise {A} (x : exn) : M A := fun w => (Raise x, w).
Definition bind {A B} (m : M A) (k : A → M B) : M B :=
  fun w => match m w with
           | (Ok a, w') => k a w'
           | (Raise x, w') => (Raise x, w')
           end.

Notation "'let*' x := m 'in' k" := (bind m (fun x => k))
  (at level 10, x name, m at level 100, k at level 200).
Notation "m ;;; k" := (bind m (fun _ => k))
  (at level 100, right associativity).

Fixpoint mapM {A B} (f : A → M B) (l : list A) : M (list B) :=
  match l with
  | [] => ret []
  | a :: l' => let* b := f a in let* bs := mapM f l' in ret (b :: bs)
  end.

(** [await asyncio.sleep(d)] *)
Definition sleep (d : float) : M unit :=
  fun w => (Ok tt, {| sent := sent w; slept := slept w ++ [d] |}).

(** ** client.py: constants and configuration *)

Definition _RETRY_BACKOFFS : list float := [0.5%float; 1.0%float; 2.0%float].
Definition _RETRYABLE_STATUS : gset Z := {[ 500%Z; 502%Z; 503%Z; 504%Z ]}.
Definition _CLIENT_ERROR_STATUS : gset Z := {[ 400%Z; 401%Z; 403%Z ]}.

(** The configuration [__init__] stores that the operations read, and the
    transport the client owns. [_max_retries] is a Python [int]. *)
Record AgentGateClient := {
  _fallback : FallbackBehavior;
  _max_retries : Z;
  _http : transport
}.

(** Python's [l[:n]]: a negative [n] counts from the end. *)
Definition slice_to {A} (l : list A) (n : Z) : list A :=
  if (0 <=? n)%Z then take (Z.to_nat n) l
  else take (length l - Z.to_nat (- n)) l.

(** [await self._http.request(...)]: the transport sees the request, and
    either hands back a response or raises. *)
Definition http_request_ (c : AgentGateClient) (req : http_request) : M Response.t :=
  fun w =>
    let w' := {| sent := sent w ++ [req]; slept := slept w |} in
    match _http c (call_count w) req with
    | Responded resp => (Ok resp, w')
    | ConnectFailed msg => (Raise (EConnect msg), w')
    | OtherFailure msg => (Raise (EOther "Exception" msg), w')
    end.

(** [resp.json()] *)
Definition resp_json (resp : Response.t) : M value :=
  match Response.json resp with
  | inl msg => raise (EOther "JSONDecodeError" msg)
  | inr data => ret data
  end.

(** [v.get(k, dflt)] on an arbitrary value: only a [dict] has [get]. *)
Definition attr_get (v : value) (k : string) (dflt : value) : M value :=
  match v with
  | VDict d => ret (dict_get d k dflt)
  | _ => raise (EOther "AttributeError"
                  ("'" +:+ type_name v +:+ "' object has no attribute 'get'"))
  end.

(** [data.get("error", {}) if isinstance(data, dict) else {}] *)
Definition error_info_of (data : value) : value :=
  match data with
  | VDict d => dict_get d "error" (VDict ∅)
  | _ => VDict ∅
  end.

(** The block that [_request] has twice (for the client-error statuses, and for
    any status >= 400 after the retry test): build the error from the decoded
    body and raise it. *)
Definition raise_http_error {A} (status : Z) (data : value) : M A :=
  let error_info := error_info_of data in
  let* msg := attr_get error_info "message" (VStr ("HTTP " +:+ pretty status)) in
  let* ty := attr_get error_info "type" VNone in
  raise (EAgentGate
           {| AgentGateError.message := msg;
              AgentGateError.status_code := Some status;
              AgentGateError.error_type := ty;
              AgentGateError.response_data := data;
              AgentGateError.is_connectivity_error := false |}).

(** [AgentGateError(msg, is_connectivity_error=True)] *)
Definition connectivity_error (msg : string) : AgentGateError.t :=
  {| AgentGateError.message := VStr msg;
     AgentGateError.status_code := None;
     AgentGateError.error_type := VNone;
     AgentGateError.response_data := VNone;
     AgentGateError.is_connectivity_error := true |}.

Definition index_error : exn := EOther "IndexError" "list index out of range".

(** ** client.py: [_request] *)

(** How the body of the [try] leaves, when it does not raise: [return data] or
    [continue]. *)
Inductive ctl :=
| Return (data : value)
| Continue.

(** The body of the [try] for one [attempt]. *)
Definition try_body (c : AgentGateClient) (backoffs : list float)
    (req : http_request) (attempt : nat) : M ctl :=
  let* resp := http_request_ c req in
  let status := Response.status_code resp in
  if bool_decide (status ∈ _CLIENT_ERROR_STATUS) then
    let* data := resp_json resp in
    raise_http_error status data
  else if bool_decide (status ∈ _RETRYABLE_STATUS) && (attempt <? length backoffs)%nat then
    match backoffs !! attempt with
    | Some d => sleep d ;;; ret Continue
    | None => raise index_error
    end
  else
    let* data := resp_json resp in
    if (400 <=? status)%Z then raise_http_error status data
    else ret (Return data).

(** How one iteration of the loop leaves: the function is left ([return] or an
    exception that propagates), or the loop goes on with the next attempt,
    [last_exc] holding [str(last_exc)]. *)
Inductive iter :=
| Finished (r : result value)
| Next (last_exc : option string).

(** One iteration of [for attempt in range(1 + len(backoffs))]: the [try] body
    and its three [except] clauses. *)
Definition one_attempt (c : AgentGateClient) (backoffs : list float)
    (req : http_request) (last_exc : option string) (attempt : nat)
    : world → iter * world :=
  fun w =>
    match try_body c backoffs req attempt w with
    | (Ok (Return data), w1) => (Finished (Ok data), w1)
    | (Ok Continue, w1) => (Next last_exc, w1)
    | (Raise (EAgentGate e), w1) => (Finished (Raise (EAgentGate e)), w1)
    | (Raise (EConnect msg), w1) =>
        if (attempt <? length backoffs)%nat then
          match backoffs !! attempt with
          | Some d => (Next (Some msg), snd (sleep d w1))
          | None => (Finished (Raise index_error), w1)
          end
        else
          (Finished (Raise (EAgentGate (connectivity_error ("Connection failed: " +:+ msg)))), w1)
    | (Raise (EOther _ msg), w1) =>
        (Finished (Raise (EAgentGate (connectivity_error ("Unexpected error: " +:+ msg)))), w1)
    end.

(** The loop over the attempts, and the code after the loop. *)
Fixpoint _request_loop (c : AgentGateClient) (backoffs : list float)
    (req : http_request) (last_exc : option string) (attempts : list nat) : M value :=
  match attempts with
  | [] =>
      match last_exc with
      | Some msg =>
          raise (EAgentGate (connectivity_error ("Connection failed after retries: " +:+ msg)))
      | None => raise (EOther "RuntimeError" "Retry loop exhausted unexpectedly")
      end
  | attempt :: rest => fun w =>
      match one_attempt c backoffs req last_exc attempt w with
      | (Finished r, w1) => (r, w1)
      | (Next last_exc', w1) => _request_loop c backoffs req last_exc' rest w1
      end
  end.

Definition _request (c : AgentGateClient) (method path : string)
    (json_data : value) : M value :=
  let backoffs := slice_to _RETRY_BACKOFFS (_max_retries c) in
  _request_loop c backoffs
    {| method := method; path := path; json_data := json_data |}
    None (seq 0 (1 + length backoffs)).

(** ** client.py: the public operations *)

(** [Cls.from_response(data)] on whatever [_request] returned: the decoder's
    first [data.get] raises unless [data] is a [dict]. *)
Definition call_from_response {T} (from_response : gmap string value → T)
    (data : value) : M T :=
  match data with
  | VDict d => ret (from_response d)
  | _ => raise (EOther "AttributeError"
                  ("'" +:+ type_name data +:+ "' object has no attribute 'get'"))
  end.

(** Truth value of an [Optional[Dict]] and of an [Optional[str]] argument. *)
Definition truthy_dict (o : option (gmap string value)) : bool :=
  match o with
  | Some d => negb (size d =? 0)%nat
  | None => false
  end.

Definition truthy_str (o : option string) : bool :=
  match o with
  | Some s => negb (String.eqb s "")
  | None => false
  end.

(** [o or {}] *)
Definition or_empty (o : option (gmap string value)) : gmap string value :=
  if truthy_dict o then default ∅ o else ∅.

(** The JSON body [request_approval] posts. *)
Definition request_body (action : string)
    (params context : option (gmap string value))
    (urgency : Urgency + string) (expires_at : option string) : gmap string value :=
  let body : gmap string value := {[ "action" := VStr action ]} in
  let body := if truthy_dict params then <["params" := VDict (default ∅ params)]> body else body in
  let body := if truthy_dict context then <["context" := VDict (default ∅ context)]> body else body in
  let body := <["urgency" := VStr match urgency with
                                  | inl u => Urgency_value u
                                  | inr s => s
                                  end]> body in
  if truthy_str expires_at then <["expiresAt" := VStr (default "" expires_at)]> body else body.

Definition request_approval (c : AgentGateClient) (action : string)
    (params context : option (gmap string value))
    (urgency : Urgency + string) (expires_at : option string) : M ApprovalRequest.t :=
  let body := request_body action params context urgency expires_at in
  let* data := _request c "POST" "/api/requests" (VDict body) in
  call_from_response ApprovalRequest.from_response data.

Definition check_decision (c : AgentGateClient) (request_id : string) : M DecisionResult.t :=
  let* data := _request c "GET" ("/api/requests/" +:+ request_id) VNone in
  call_from_response DecisionResult.from_response data.

(** [for p in v]: the elements a comprehension draws from [v]. A [str] yields
    its characters and a [dict] its keys (all of them [str]); the scalars are
    not iterable. *)
Definition iterate (v : value) : M (list value) :=
  match v with
  | VList l => ret l
  | VStr s => ret ((fun a => VStr (String a EmptyString)) <$> list_ascii_of_string s)
  | VDict d => ret (VStr <$> (map_to_list d).*1)
  | _ => raise (EOther "TypeError" ("'" +:+ type_name v +:+ "' object is not iterable"))
  end.

Definition list_policies (c : AgentGateClient) : M (list Policy.t) :=
  let* data := _request c "GET" "/api/policies" VNone in
  match data with
  | VList l => mapM (call_from_response Policy.from_response) l
  | _ =>
      let* inner := attr_get data "data" (VList []) in
      let* policies := attr_get data "policies" inner in
      let* ps := iterate policies in
      mapM (call_from_response Policy.from_response) ps
  end.

Definition _fallback_request (c : AgentGateClient) (action : string)
    (params context : option (gmap string value)) : ApprovalRequest.t :=
  let status :=
    match _fallback c with
    | ALLOW => "approved"
    | DENY => "denied"
    end in
  let decision := status in
  {| ApprovalRequest.id := VStr "fallback";
     ApprovalRequest.action := VStr action;
     ApprovalRequest.status := VStr status;
     ApprovalRequest.decision := VStr decision;
     ApprovalRequest.params := VDict (or_empty params);
     ApprovalRequest.context := VDict (or_empty context);
     ApprovalRequest.urgency := VStr "normal";
     ApprovalRequest.decided_by := VNone;
     ApprovalRequest.decided_at := VNone;
     ApprovalRequest.expires_at := VNone;
     ApprovalRequest.created_at := VNone;
     ApprovalRequest.updated_at := VNone;
     ApprovalRequest.raw := VDict {[ "_fallback" := VBool true ]} |}.

Definition request_approval_safe (c : AgentGateClient) (action : string)
    (params context : option (gmap string value))
    (urgency : Urgency + string) (expires_at : option string) : M ApprovalRequest.t :=
  fun w =>
    match request_approval c action params context urgency expires_at w with
    | (Raise (EAgentGate exc), w') =>
        if AgentGateError.is_connectivity_error exc
        then (Ok (_fallback_request c action params context), w')
        else (Raise (EAgentGate exc), w')
    | r => r
    end.

(** ** client.py: [__init__] *)

(** [s.rstrip(ch)] for a one-character [ch]: every trailing [ch] is dropped. *)
Fixpoint rstrip (ch : ascii) (s : string) : string :=
  match s with
  | EmptyString => EmptyString
  | String a s' =>
      match rstrip ch s' with
      | EmptyString => if Ascii.eqb a ch then EmptyString else String a EmptyString
      | r => String a r
      end
  end.

(** [FallbackBehavior(s)] for a [str]: the member whose value is [s], if any. *)
Definition FallbackBehavior_of_value (s : string) : option FallbackBehavior :=
  if String.eqb s "allow" then Some ALLOW
  else if String.eqb s "deny" then Some DENY
  else None.

Definition FallbackBehavior_value (fb : FallbackBehavior) : string :=
  match fb with
  | ALLOW => "allow"
  | DENY => "deny"
  end.

Definition _DEFAULT_URL : string := "http://localhost:3000".
Definition _DEFAULT_TIMEOUT : float := 10.0%float.

(** Truth value of an [Optional[str]], and [a or b]. *)
Definition str_or (a : option string) (b : string) : string :=
  if truthy_str a then default "" a else b.

(** What [__init__] stores on the client, and the headers it hands to
    [httpx.AsyncClient]. *)
Module Settings.

Record t := mk {
  _url : string;
  _api_key : string;
  _timeout : float;
  _fallback : FallbackBehavior;
  _max_retries : Z;
  headers : gmap string string
}.

End Settings.

(** The two ways [__init__] raises [ValueError]: [float(raw)] on the timeout
    taken from the environment, and [FallbackBehavior(raw)]. *)
Inductive init_error :=
| ValueError_float (raw : string)
| ValueError_FallbackBehavior (raw : string).

Inductive init_result :=
| Initialised (s : Settings.t)
| InitError (e : init_error).

Section Init.
(** Python's [float(s)] on a [str]; [None] when it raises [ValueError]. *)
Variable float_of_str : string → option float.

(** [AgentGateClient.__init__(url, api_key, timeout, fallback, max_retries)]
    under the environment [environ]. *)
Definition __init__ (environ : gmap string string)
    (url api_key : option string) (timeout : option float)
    (fallback : FallbackBehavior + string) (max_retries : Z) : init_result :=
  let _url := rstrip "/"%char (str_or url (default _DEFAULT_URL (environ !! "AGENTGATE_URL"))) in
  let _api_key := str_or api_key (default "" (environ !! "AGENTGATE_API_KEY")) in
  let _timeout :=
    match timeout with
    | Some t => inr t
    | None =>
        match environ !! "AGENTGATE_TIMEOUT" with
        | Some raw =>
            match float_of_str raw with
            | Some t => inr t
            | None => inl raw
            end
        | None => inr _DEFAULT_TIMEOUT
        end
    end in
  match _timeout with
  | inl raw => InitError (ValueError_float raw)
  | inr _timeout =>
      (* a member of the enumeration is a [str] too, and
         [FallbackBehavior(member)] is that member *)
      let _fallback :=
        match fallback with
        | inl fb => inr fb
        | inr s =>
            match FallbackBehavior_of_value s with
            | Some fb => inr fb
            | None => inl s
            end
        end in
      match _fallback with
      | inl raw => InitError (ValueError_FallbackBehavior raw)
      | inr _fallback =>
          let headers : gmap string string :=
            {[ "Content-Type" := "application/json" ]} in
          let headers :=
            if negb (String.eqb _api_key "")
            then <["Authorization" := "Bearer " +:+ _api_key]> headers
            else headers in
          Initialised
            {| Settings._url := _url;
               Settings._api_key := _api_key;
               Settings._timeout := _timeout;
               Settings._fallback := _fallback;
               Settings._max_retries := max_retries;
               Settings.headers := headers |}
      end
  end.

End Init.

(** ** Building inputs *)

Definition w0 : world := {| sent := []; slept := [] |}.

(** A transport that plays a list of outcomes in order, then keeps failing to
    connect (a [side_effect] list of the repository's tests). *)
Definition scripted (os : list outcome) : transport :=
  fun n _ => default (ConnectFailed "refused") (os !! n).

Definition always (o : outcome) : transport := fun _ _ => o.

Definition json_response (status : Z) (body : value) : outcome :=
  Responded {| Response.status_code := status; Response.json := inr body |}.

Definition client (fb : FallbackBehavior) (n : Z) (tr : transport) : AgentGateClient :=
  {| _fallback := fb; _max_retries := n; _http := tr |}.

(** ** The vocabulary of the statements *)

(** The world after the transport has seen one more request. *)
Definition push (w : world) (req : http_request) : world :=
  {| sent := sent w ++ [req]; slept := slept w |}.

(** An outcome the loop retries while attempts remain. *)
Definition retryable_outcome (o : outcome) : Prop :=
  match o with
  | Responded resp => Response.status_code resp ∈ _RETRYABLE_STATUS
  | ConnectFailed _ => True
  | OtherFailure _ => False
  end.

(** The error [raise_http_error] builds when the "error" member is usable. *)
Definition http_error (status : Z) (data : value) (error_info : gmap string value)
    : AgentGateError.t :=
  {| AgentGateError.message :=
       dict_get error_info "message" (VStr ("HTTP " +:+ pretty status));
     AgentGateError.status_code := Some status;
     AgentGateError.error_type := dict_get error_info "type" VNone;
     AgentGateError.response_data := data;
     AgentGateError.is_connectivity_error := false |}.


(** The order of the back-offs. *)
Definition float_lt (a b : float) : Prop := PrimFloat.ltb a b = true.

(** [n] copies of the character [ch]. *)
Fixpoint repeat_char (n : nat) (ch : ascii) : string :=
  match n with
  | 0 => EmptyString
  | S n' => String ch (repeat_char n' ch)
  end.

(** ** Inputs of the examples *)

(** The response of the spec's example: [{"id": "x", "action": "y"}]. *)
Definition minimal_request : gmap string value :=
  {[ "id" := VStr "x"; "action" := VStr "y" ]}.

(** Two policies, as the repository's tests send them. *)
Definition two_policies : list (gmap string value) :=
  [ {[ "id" := VStr "pol_1"; "name" := VStr "Auto-approve reads";
       "rules" := VList []; "priority" := VInt 1; "enabled" := VBool true ]};
    {[ "id" := VStr "pol_2"; "name" := VStr "Deny deletes";
       "rules" := VList []; "priority" := VInt 2; "enabled" := VBool true ]} ].

Definition policies_wrapped : value :=
  VDict {[ "policies" := VList (VDict <$> two_policies) ]}.

(** The repository's test: a refused connection, then a 200. *)
Definition pending_req_1 : value :=
  VDict {[ "id" := VStr "req_1"; "action" := VStr "x"; "status" := VStr "pending" ]}.

Definition get_req_1 : http_request :=
  {| method := "GET"; path := "/api/requests/req_1"; json_data := VNone |}.



(** A 200 whose body is not JSON. *)
Definition ok_not_json : Response.t :=
  {| Response.status_code := 200;
     Response.json := inl "Expecting value: line 1 column 1 (char 0)" |}.

(** A 401 whose "error" member is a string. *)
Definition unauthorized_string : outcome :=
  json_response 401 (VDict {[ "error" := VStr "Unauthorized" ]}).

(** A 500, then a refused connection, then a 200. *)
Definition flaky_then_ok : transport :=
  scripted [ json_response 500 (VDict {[ "error" := VStr "internal" ]});
             ConnectFailed "refused";
             json_response 200 pending_req_1 ].

(** The request [request_approval("deploy")] posts. *)
Definition post_deploy : http_request :=
  {| method := "POST"; path := "/api/requests";
     json_data := VDict {[ "action" := VStr "deploy"; "urgency" := VStr "normal" ]} |}.

(** A server that cannot be reached. *)
Definition unreachable : transport := always (ConnectFailed "refused").

(** A 200 whose body is JSON, but not an object. *)
Definition ok_null : outcome := json_response 200 VNone.

(** The request [check_decision("req_1")] sends is [get_req_1]; the request
    of [list_policies]: *)
Definition get_policies : http_request :=
  {| method := "GET"; path := "/api/policies"; json_data := VNone |}.

(** An approved request, as the repository's tests send it. *)
Definition approved_req_1 : gmap string value :=
  {[ "id" := VStr "req_1"; "action" := VStr "x";
     "status" := VStr "approved"; "decision" := VStr "approved" ]}.

(** The environment of the repository's [test_env_defaults], and a [float]
    that reads the one timeout it sets. *)
Definition test_environ : gmap string string :=
  {[ "AGENTGATE_URL" := "http://custom:9999";
     "AGENTGATE_API_KEY" := "env-key";
     "AGENTGATE_TIMEOUT" := "30" ]}.

Definition float_of_30 (s : string) : option float :=
  if String.eqb s "30" then Some 30.0%float else None.

(** A list of policies whose second element is not an object. *)
Definition policies_with_string : list value :=
  [ VDict {[ "id" := VStr "pol_1" ]}; VStr "pol_2" ].

(** * Properties *)

(** ** The decoders of types.py *)

Lemma dict_get_absent (d : gmap string value) (k : string) (dflt : value) :
  d !! k = None → dict_get d k dflt = dflt.
Proof. intros E. unfold dict_get. by rewrite E. Qed.

Lemma dict_get_present (d : gmap string value) (k : string) (dflt v : value) :
  d !! k = Some v → dict_get d k dflt = v.
Proof. intros E. unfold dict_get. by rewrite E. Qed.

Lemma call_from_response_dict {T} (f : gmap string value → T)
    (d : gmap string value) (w : world) :
  call_from_response f (VDict d) w = (Ok (f d), w).
Proof. reflexivity. Qed.

(** Decode a field whose key the context says is absent, or bound. *)
Ltac by_lookup :=
  cbn;
  repeat match goal with
         | E : _ !! _ = None |- _ => rewrite ?(dict_get_absent _ _ _ E); clear E
         | E : _ !! _ = Some _ |- _ => rewrite ?(dict_get_present _ _ _ _ E); clear E
         end;
  reflexivity.

(** C7. On every mapping the three decoders return a record (applied to the
    mapping, the decoder call returns normally and leaves the effects
    untouched), and every optional key that the mapping does not bind is
    decoded to its default: status "pending", urgency "normal", params and
    context the empty dict, rules the empty list, enabled [True], priority 0,
    and [None] for decision and for the decider and timestamp fields. *)
Theorem from_response_defaults (data : gmap string value) :
  (∀ w, call_from_response ApprovalRequest.from_response (VDict data) w
        = (Ok (ApprovalRequest.from_response data), w)) ∧
  (∀ w, call_from_response Policy.from_response (VDict data) w
        = (Ok (Policy.from_response data), w)) ∧
  (∀ w, call_from_response DecisionResult.from_response (VDict data) w
        = (Ok (DecisionResult.from_response data), w)) ∧
  (data !! "status" = None →
     ApprovalRequest.status (ApprovalRequest.from_response data) = VStr "pending" ∧
     DecisionResult.status (DecisionResult.from_response data) = VStr "pending" ∧
     DecisionResult.is_decided (DecisionResult.from_response data) = false) ∧
  (data !! "urgency" = None →
     ApprovalRequest.urgency (ApprovalRequest.from_response data) = VStr "normal") ∧
  (data !! "params" = None →
     ApprovalRequest.params (ApprovalRequest.from_response data) = VDict ∅) ∧
  (data !! "context" = None →
     ApprovalRequest.context (ApprovalRequest.from_response data) = VDict ∅) ∧
  (data !! "decision" = None →
     ApprovalRequest.decision (ApprovalRequest.from_response data) = VNone ∧
     DecisionResult.decision (DecisionResult.from_response data) = VNone) ∧
  (data !! "decidedBy" = None →
     ApprovalRequest.decided_by (ApprovalRequest.from_response data) = VNone) ∧
  (data !! "decidedAt" = None →
     ApprovalRequest.decided_at (ApprovalRequest.from_response data) = VNone) ∧
  (data !! "expiresAt" = None →
     ApprovalRequest.expires_at (ApprovalRequest.from_response data) = VNone) ∧
  (data !! "createdAt" = None →
     ApprovalRequest.created_at (ApprovalRequest.from_response data) = VNone) ∧
  (data !! "updatedAt" = None →
     ApprovalRequest.updated_at (ApprovalRequest.from_response data) = VNone) ∧
  (data !! "rules" = None →
     Policy.rules (Policy.from_response data) = VList []) ∧
  (data !! "enabled" = None →
     Policy.enabled (Policy.from_response data) = VBool true) ∧
  (data !! "priority" = None →
     Policy.priority (Policy.from_response data) = VInt 0).
Proof.
  repeat split; intros; by_lookup.
Qed.

(** The spec's example, decoded: every default at once. *)
Lemma from_response_defaults_witness :
  let r := ApprovalRequest.from_response minimal_request in
  ApprovalRequest.status r = VStr "pending" ∧
  ApprovalRequest.urgency r = VStr "normal" ∧
  ApprovalRequest.params r = VDict ∅ ∧
  ApprovalRequest.context r = VDict ∅ ∧
  ApprovalRequest.decision r = VNone ∧
  Policy.rules (Policy.from_response minimal_request) = VList [] ∧
  Policy.enabled (Policy.from_response minimal_request) = VBool true ∧
  Policy.priority (Policy.from_response minimal_request) = VInt 0 ∧
  DecisionResult.is_decided (DecisionResult.from_response minimal_request) = false.
Proof.
  destruct (from_response_defaults minimal_request)
    as (_ & _ & _ & Hst & Hu & Hp & Hc & Hd & _ & _ & _ & _ & _ & Hr & He & Hpr).
  cbv zeta.
  split; [apply Hst; reflexivity|].
  split; [apply Hu; reflexivity|].
  split; [apply Hp; reflexivity|].
  split; [apply Hc; reflexivity|].
  split; [apply Hd; reflexivity|].
  split; [apply Hr; reflexivity|].
  split; [apply He; reflexivity|].
  split; [apply Hpr; reflexivity|].
  apply Hst; reflexivity.
Defined.

(** C10. A key that is present and bound to [None] (JSON null) is not
    defaulted: the decoded field is [None]. In particular [params] is [None]
    and not the empty dict, [status] is [None] and not "pending", and then
    [is_decided] is false. *)
Theorem from_response_null_kept (data : gmap string value) :
  (data !! "status" = Some VNone →
     ApprovalRequest.status (ApprovalRequest.from_response data) = VNone ∧
     DecisionResult.status (DecisionResult.from_response data) = VNone ∧
     DecisionResult.is_decided (DecisionResult.from_response data) = false) ∧
  (data !! "id" = Some VNone →
     ApprovalRequest.id (ApprovalRequest.from_response data) = VNone ∧
     Policy.id (Policy.from_response data) = VNone ∧
     DecisionResult.id (DecisionResult.from_response data) = VNone) ∧
  (data !! "action" = Some VNone →
     ApprovalRequest.action (ApprovalRequest.from_response data) = VNone) ∧
  (data !! "urgency" = Some VNone →
     ApprovalRequest.urgency (ApprovalRequest.from_response data) = VNone) ∧
  (data !! "params" = Some VNone →
     ApprovalRequest.params (ApprovalRequest.from_response data) = VNone) ∧
  (data !! "context" = Some VNone →
     ApprovalRequest.context (ApprovalRequest.from_response data) = VNone) ∧
  (data !! "name" = Some VNone →
     Policy.name (Policy.from_response data) = VNone) ∧
  (data !! "rules" = Some VNone →
     Policy.rules (Policy.from_response data) = VNone) ∧
  (data !! "enabled" = Some VNone →
     Policy.enabled (Policy.from_response data) = VNone) ∧
  (data !! "priority" = Some VNone →
     Policy.priority (Policy.from_response data) = VNone).
Proof.
  repeat split; intros; by_lookup.
Qed.

(** The two examples of the claim:
    [{"id": "x", "action": "y", "params": null}] and [{"status": null}]. *)
Lemma from_response_null_kept_witness :
  ApprovalRequest.params
    (ApprovalRequest.from_response (<["params" := VNone]> minimal_request)) = VNone ∧
  DecisionResult.status (DecisionResult.from_response {[ "status" := VNone ]}) = VNone ∧
  DecisionResult.is_decided (DecisionResult.from_response {[ "status" := VNone ]}) = false.
Proof.
  split.
  - apply (from_response_null_kept (<["params" := VNone]> minimal_request)).
    reflexivity.
  - destruct (from_response_null_kept {[ "status" := VNone ]}) as (Hst & _).
    destruct (Hst eq_refl) as (_ & H1 & H2). split; assumption.
Defined.

(** ** [list_policies]: the shapes of the response body *)

Lemma mapM_from_response {T} (f : gmap string value → T)
    (ps : list (gmap string value)) (w : world) :
  mapM (call_from_response f) (VDict <$> ps) w = (Ok (f <$> ps), w).
Proof.
  induction ps as [|p ps IH]; [reflexivity|].
  change (mapM (call_from_response f) (VDict p :: (VDict <$> ps)) w
          = (Ok (f p :: (f <$> ps)), w)).
  cbn [mapM]. unfold bind at 1. rewrite call_from_response_dict.
  unfold bind at 1. rewrite IH. reflexivity.
Qed.

(** C8. Whatever list [ps] of policy objects the server sends, the bare array
    [ps], a mapping whose "policies" member is [ps], and a mapping without
    "policies" whose "data" member is [ps] (so [{"policies": ps}] and
    [{"data": ps}]) are decoded by [list_policies] to the same sequence:
    [Policy.from_response] of each element of [ps], in order. *)
Theorem list_policies_shapes (c : AgentGateClient)
    (ps : list (gmap string value)) (body : value) (w w' : world) :
  body = VList (VDict <$> ps)
  ∨ (∃ d, body = VDict d ∧ d !! "policies" = Some (VList (VDict <$> ps)))
  ∨ (∃ d, body = VDict d ∧ d !! "policies" = None
          ∧ d !! "data" = Some (VList (VDict <$> ps))) →
  _request c "GET" "/api/policies" VNone w = (Ok body, w') →
  list_policies c w = (Ok (Policy.from_response <$> ps), w').
Proof.
  intros Hshape Hreq. unfold list_policies, bind at 1. rewrite Hreq.
  destruct Hshape as [-> | [(d & -> & Hp) | (d & -> & Hp & Hd)]].
  - apply mapM_from_response.
  - unfold bind, attr_get, ret. rewrite (dict_get_present _ _ _ _ Hp).
    cbn. apply mapM_from_response.
  - unfold bind, attr_get, ret.
    rewrite (dict_get_absent _ _ _ Hp), (dict_get_present _ _ _ _ Hd).
    cbn. apply mapM_from_response.
Qed.

Lemma list_policies_shapes_witness :
  list_policies (client DENY 3 (always (json_response 200 policies_wrapped))) w0
  = (Ok (Policy.from_response <$> two_policies),
     {| sent := [ {| method := "GET"; path := "/api/policies"; json_data := VNone |} ];
        slept := [] |}).
Proof.
  apply (list_policies_shapes _ two_policies policies_wrapped).
  - right; left. eexists. split; reflexivity.
  - reflexivity.
Defined.

(** ** [request_approval_safe]: the fallback record *)

Lemma or_empty_given_or_empty (o : option (gmap string value)) :
  or_empty o = default ∅ o.
Proof.
  destruct o as [d|]; [|reflexivity].
  unfold or_empty, truthy_dict.
  destruct (Nat.eqb_spec (size d) 0) as [E|_]; [|reflexivity].
  cbn. symmetry. by apply map_size_empty_iff.
Qed.

(** C2. When [request_approval] raises an [AgentGateError] whose
    connectivity flag is set, [request_approval_safe] returns instead of
    raising: the record has id "fallback", the given action, the given params
    and context (the empty dict for one that was not given), and status and
    decision that are both "denied" under fallback deny and both "approved"
    under fallback allow. *)
Theorem request_approval_safe_fallback (c : AgentGateClient) (action : string)
    (params context : option (gmap string value))
    (urgency : Urgency + string) (expires_at : option string)
    (exc : AgentGateError.t) (w w' : world) :
  request_approval c action params context urgency expires_at w
    = (Raise (EAgentGate exc), w') →
  AgentGateError.is_connectivity_error exc = true →
  ∃ r, request_approval_safe c action params context urgency expires_at w = (Ok r, w')
       ∧ ApprovalRequest.id r = VStr "fallback"
       ∧ ApprovalRequest.action r = VStr action
       ∧ ApprovalRequest.params r = VDict (default ∅ params)
       ∧ ApprovalRequest.context r = VDict (default ∅ context)
       ∧ (_fallback c = DENY →
            ApprovalRequest.status r = VStr "denied"
            ∧ ApprovalRequest.decision r = VStr "denied")
       ∧ (_fallback c = ALLOW →
            ApprovalRequest.status r = VStr "approved"
            ∧ ApprovalRequest.decision r = VStr "approved").
Proof.
  intros Hreq Hflag.
  exists (_fallback_request c action params context).
  unfold request_approval_safe. rewrite Hreq, Hflag.
  unfold _fallback_request; cbn. rewrite !or_empty_given_or_empty.
  split; [reflexivity|]. do 4 (split; [reflexivity|]).
  split; intros ->; split; reflexivity.
Qed.

(** ** One attempt of the retry loop *)

Lemma elem_of_RETRYABLE (s : Z) :
  s ∈ _RETRYABLE_STATUS ↔ s = 500%Z ∨ s = 502%Z ∨ s = 503%Z ∨ s = 504%Z.
Proof. unfold _RETRYABLE_STATUS. rewrite !elem_of_union, !elem_of_singleton. tauto. Qed.

Lemma elem_of_CLIENT_ERROR (s : Z) :
  s ∈ _CLIENT_ERROR_STATUS ↔ s = 400%Z ∨ s = 401%Z ∨ s = 403%Z.
Proof. unfold _CLIENT_ERROR_STATUS. rewrite !elem_of_union, !elem_of_singleton. tauto. Qed.

Lemma retryable_not_client (s : Z) :
  s ∈ _RETRYABLE_STATUS → s ∉ _CLIENT_ERROR_STATUS.
Proof. rewrite elem_of_RETRYABLE, elem_of_CLIENT_ERROR. lia. Qed.


Lemma client_ge_400 (s : Z) : s ∈ _CLIENT_ERROR_STATUS → (400 ≤ s)%Z.
Proof. rewrite elem_of_CLIENT_ERROR. lia. Qed.

Lemma success_not_retried (s : Z) :
  (s < 400)%Z → (s ∉ _CLIENT_ERROR_STATUS) ∧ (s ∉ _RETRYABLE_STATUS).
Proof. rewrite elem_of_RETRYABLE, elem_of_CLIENT_ERROR. lia. Qed.

Lemma raise_http_error_dict {A} (status : Z) (data : value)
    (error_info : gmap string value) (w : world) :
  error_info_of data = VDict error_info →
  @raise_http_error A status data w
  = (Raise (EAgentGate (http_error status data error_info)), w).
Proof. intros E. unfold raise_http_error. rewrite E. reflexivity. Qed.

(** Either the error is built, or the "error" member has no [get]. *)
Lemma raise_http_error_cases {A} (status : Z) (data : value) (w : world) :
  (∃ error_info, error_info_of data = VDict error_info
     ∧ @raise_http_error A status data w
       = (Raise (EAgentGate (http_error status data error_info)), w))
  ∨ (∃ msg, @raise_http_error A status data w = (Raise (EOther "AttributeError" msg), w)).
Proof.
  destruct (error_info_of data) as [| | | | | |d] eqn:E;
    try (right; unfold raise_http_error; rewrite E; eexists; reflexivity).
  left. exists d. split; [reflexivity|]. by apply raise_http_error_dict.
Qed.

#[local] Arguments raise_http_error : simpl never.
#[local] Arguments Nat.ltb : simpl never.
#[local] Arguments Z.leb : simpl never.

Section OneAttempt.
Variables (c : AgentGateClient) (backoffs : list float) (req : http_request).

Lemma lookup_backoff (attempt : nat) :
  (attempt <? length backoffs)%nat = true → is_Some (backoffs !! attempt).
Proof. intros H. apply lookup_lt_is_Some, Nat.ltb_lt, H. Qed.

(** A retryable status while attempts remain: sleep, next attempt. *)
Lemma one_attempt_retry_status last attempt w resp d :
  _http c (call_count w) req = Responded resp →
  Response.status_code resp ∈ _RETRYABLE_STATUS →
  backoffs !! attempt = Some d →
  one_attempt c backoffs req last attempt w
  = (Next last, {| sent := sent w ++ [req]; slept := slept w ++ [d] |}).
Proof.
  intros Ho Hs Hd. unfold one_attempt, try_body, bind, http_request_.
  rewrite Ho.
  rewrite (bool_decide_eq_false_2 _ (retryable_not_client _ Hs)).
  rewrite (bool_decide_eq_true_2 _ Hs).
  assert ((attempt <? length backoffs)%nat = true) as ->
    by (apply Nat.ltb_lt; eapply lookup_lt_Some, Hd).
  cbn. rewrite Hd. reflexivity.
Qed.

(** A connect or timeout failure while attempts remain: sleep, next
    attempt, the failure remembered. *)
Lemma one_attempt_retry_connect last attempt w msg d :
  _http c (call_count w) req = ConnectFailed msg →
  backoffs !! attempt = Some d →
  one_attempt c backoffs req last attempt w
  = (Next (Some msg), {| sent := sent w ++ [req]; slept := slept w ++ [d] |}).
Proof.
  intros Ho Hd. unfold one_attempt, try_body, bind, http_request_.
  rewrite Ho.
  assert ((attempt <? length backoffs)%nat = true) as ->
    by (apply Nat.ltb_lt; eapply lookup_lt_Some, Hd).
  rewrite Hd. reflexivity.
Qed.

(** A status below 400 whose body decodes: the body is returned. *)
Lemma one_attempt_success last attempt w resp data :
  _http c (call_count w) req = Responded resp →
  (Response.status_code resp < 400)%Z →
  Response.json resp = inr data →
  one_attempt c backoffs req last attempt w = (Finished (Ok data), push w req).
Proof.
  intros Ho Hs Hj. unfold one_attempt, try_body, bind, http_request_.
  rewrite Ho.
  destruct (success_not_retried _ Hs) as [Hc Hr].
  rewrite (bool_decide_eq_false_2 _ Hc), (bool_decide_eq_false_2 _ Hr).
  assert ((400 <=? Response.status_code resp)%Z = false) as Hlt
    by (apply Z.leb_gt, Hs).
  cbn. unfold resp_json. rewrite Hj. cbn. rewrite Hlt. reflexivity.
Qed.

(** A status of 400 or more that is not (or no longer) retried, with a body
    that decodes and a usable "error" member: the error is raised. *)
Lemma one_attempt_http_error last (attempt : nat) w resp data error_info :
  _http c (call_count w) req = Responded resp →
  (400 ≤ Response.status_code resp)%Z →
  (Response.status_code resp ∈ _RETRYABLE_STATUS → (length backoffs ≤ attempt)%nat) →
  Response.json resp = inr data →
  error_info_of data = VDict error_info →
  one_attempt c backoffs req last attempt w
  = (Finished (Raise (EAgentGate
                        (http_error (Response.status_code resp) data error_info))),
     push w req).
Proof.
  intros Ho Hs Hr Hj He. unfold one_attempt, try_body, bind, http_request_.
  rewrite Ho. unfold resp_json. rewrite Hj.
  assert ((400 <=? Response.status_code resp)%Z = true) as Hge
    by (apply Z.leb_le, Hs).
  case_bool_decide as Hc.
  - cbn. rewrite (raise_http_error_dict _ _ _ _ He). reflexivity.
  - case_bool_decide as Hr'.
    + assert ((attempt <? length backoffs)%nat = false) as ->
        by (apply Nat.ltb_ge, Hr, Hr').
      cbn. rewrite Hge, (raise_http_error_dict _ _ _ _ He). reflexivity.
    + cbn. rewrite Hge, (raise_http_error_dict _ _ _ _ He). reflexivity.
Qed.

End OneAttempt.


Section OneAttemptInv.
Variables (c : AgentGateClient) (backoffs : list float) (req : http_request).

Ltac open_attempt H :=
  unfold one_attempt, try_body, bind, http_request_, resp_json in H;
  destruct (_http c _ req) as [resp|msg|msg] eqn:Ho;
  [ destruct (Response.json resp) as [jmsg|data] eqn:Hj;
    repeat case_bool_decide; cbn in H;
    repeat match type of H with
           | context [(?a <? ?b)%nat] =>
               let E := fresh "Hlt" in destruct (a <? b)%nat eqn:E; cbn in H
           | context [(?a <=? ?b)%Z] =>
               let E := fresh "Hle" in destruct (a <=? b)%Z eqn:E; cbn in H
           | context [backoffs !! ?a] =>
               let E := fresh "Hd" in destruct (backoffs !! a) eqn:E; cbn in H
           | context [@raise_http_error ?A ?s ?d ?w] =>
               let E := fresh "He" in
               let E' := fresh "Hraise" in
               destruct (@raise_http_error_cases A s d w)
                 as [(? & E & E')|(? & E')];
               rewrite E' in H; clear E'; cbn in H
           end
  | repeat match type of H with
           | context [(?a <? ?b)%nat] =>
               let E := fresh "Hlt" in destruct (a <? b)%nat eqn:E; cbn in H
           | context [backoffs !! ?a] =>
               let E := fresh "Hd" in destruct (backoffs !! a) eqn:E; cbn in H
           end
  | cbn in H ].

Ltac no_index_error :=
  match goal with
  | Hlt : (?a <? length backoffs)%nat = true, Hd : backoffs !! ?a = None |- _ =>
      exfalso; destruct (lookup_backoff backoffs a Hlt) as [? E];
      rewrite E in Hd; discriminate
  end.

(** The loop goes on only after a retryable outcome, while attempts remain,
    and after sleeping for this attempt's back-off. *)
Lemma one_attempt_next last attempt w last' w' :
  one_attempt c backoffs req last attempt w = (Next last', w') →
  retryable_outcome (_http c (call_count w) req)
  ∧ ∃ d, backoffs !! attempt = Some d
         ∧ w' = {| sent := sent w ++ [req]; slept := slept w ++ [d] |}.
Proof.
  intros H. open_attempt H; simplify_eq; try no_index_error;
    (split; [done|eexists; split; reflexivity]).
Qed.

(** An attempt that ends the request has made one call and has not slept. *)
Lemma one_attempt_finished last attempt w r w' :
  one_attempt c backoffs req last attempt w = (Finished r, w') →
  w' = push w req.
Proof.
  intros H. open_attempt H; simplify_eq; reflexivity.
Qed.


(** A retryable outcome while attempts remain never ends the request. *)
Lemma one_attempt_retryable_goes_on last attempt w r w' :
  retryable_outcome (_http c (call_count w) req) →
  attempt < length backoffs →
  one_attempt c backoffs req last attempt w ≠ (Finished r, w').
Proof.
  intros Hretry Hlt H.
  destruct (lookup_lt_is_Some_2 backoffs attempt Hlt) as [d Hd].
  destruct (_http c (call_count w) req) as [resp|msg|msg] eqn:Ho; cbn in Hretry.
  - rewrite (one_attempt_retry_status _ _ _ _ _ _ _ d Ho Hretry Hd) in H.
    discriminate.
  - rewrite (one_attempt_retry_connect _ _ _ _ _ _ _ d Ho Hd) in H.
    discriminate.
  - done.
Qed.

End OneAttemptInv.

(** ** The retry loop *)

Section Loop.
Variables (c : AgentGateClient) (backoffs : list float) (req : http_request).

(** The loop started at attempt [a] with [k] retries left ends in one of its
    attempts, number [a + j]: the [j] attempts before it each made one call
    and slept for their back-off, in order. *)
Lemma _request_loop_final (k a : nat) (last : option string) (w : world)
    (r : result value) (w' : world) :
  a + k = length backoffs →
  _request_loop c backoffs req last (seq a (S k)) w = (r, w') →
  ∃ j last' wj,
    j ≤ k
    ∧ sent wj = sent w ++ replicate j req
    ∧ slept wj = slept w ++ take j (drop a backoffs)
    ∧ one_attempt c backoffs req last' (a + j) wj = (Finished r, w').
Proof.
  revert a last w. induction k as [|k IH]; intros a last w Hlen Hloop.
  - cbn in Hloop.
    destruct (one_attempt c backoffs req last a w) as [[r1|last1] w1] eqn:E1.
    + inversion Hloop; subst. exists 0, last, w.
      rewrite Nat.add_0_r, !app_nil_r. by repeat split.
    + apply one_attempt_next in E1 as (_ & d & Hd & _).
      apply lookup_lt_Some in Hd. lia.
  - rewrite <- cons_seq in Hloop. cbn [_request_loop] in Hloop.
    destruct (one_attempt c backoffs req last a w) as [[r1|last1] w1] eqn:E1.
    + inversion Hloop; subst. exists 0, last, w.
      rewrite Nat.add_0_r, !app_nil_r. repeat split; [lia|done].
    + apply one_attempt_next in E1 as (_ & d & Hd & ->).
      apply IH in Hloop as (j & last' & wj & Hj & Hsent & Hslept & Hfin); [|lia].
      exists (S j), last', wj. cbn in Hsent, Hslept.
      repeat split.
      * lia.
      * rewrite Hsent, <- app_assoc. reflexivity.
      * rewrite Hslept, <- app_assoc, (drop_S _ _ _ Hd). reflexivity.
      * rewrite <- Hfin. f_equal. lia.
Qed.

(** When every call has a retryable outcome, the loop runs through all its
    attempts: one call each, and every back-off slept, in order. *)
Lemma _request_loop_persistent (last : option string) (w : world)
    (r : result value) (w' : world) :
  (∀ n, retryable_outcome (_http c n req)) →
  _request_loop c backoffs req last (seq 0 (S (length backoffs))) w = (r, w') →
  ∃ last' wj,
    sent wj = sent w ++ replicate (length backoffs) req
    ∧ slept wj = slept w ++ backoffs
    ∧ w' = push wj req
    ∧ one_attempt c backoffs req last' (length backoffs) wj = (Finished r, w').
Proof.
  intros Hretry Hloop.
  apply _request_loop_final in Hloop as (j & last' & wj & Hj & Hsent & Hslept & Hfin);
    [|reflexivity].
  assert (j = length backoffs) as ->.
  { destruct (decide (j < length backoffs)) as [Hlt|]; [|lia].
    exfalso. by eapply (one_attempt_retryable_goes_on c backoffs req last' j wj). }
  exists last', wj. rewrite drop_0, firstn_all in Hslept.
  repeat split; try done. by eapply one_attempt_finished.
Qed.

End Loop.

Lemma length_slice_to_backoffs (n : Z) :
  (0 ≤ n)%Z → length (slice_to _RETRY_BACKOFFS n) = Z.to_nat n `min` 3.
Proof.
  intros Hn. unfold slice_to.
  destruct (Z.leb_spec 0 n); [|lia]. by rewrite length_take.
Qed.

Lemma slice_to_nonneg {A} (l : list A) (n : Z) :
  (0 ≤ n)%Z → slice_to l n = take (Z.to_nat n) l.
Proof. intros Hn. unfold slice_to. destruct (Z.leb_spec 0 n); [done|lia]. Qed.

(** ** [_request] *)

Lemma _RETRY_BACKOFFS_increasing : StronglySorted float_lt _RETRY_BACKOFFS.
Proof. repeat constructor. Qed.


Lemma call_count_push (w : world) (req : http_request) (ds : list float) :
  call_count {| sent := sent w ++ [req]; slept := ds |} = S (call_count w).
Proof. unfold call_count; cbn. rewrite length_app; cbn. lia. Qed.



(** C4, as the code has it. For every [max_retries = n >= 0] the back-offs
    are the fixed increasing sequence 0.5, 1.0, 2.0 cut to its first [n]
    entries, so there are [min n 3] of them; when every call has a retryable
    outcome (a retryable status or a connect/timeout failure), [_request]
    sleeps for exactly these back-offs, in order, and the transport sees
    [1 + min n 3] calls. *)
Theorem attempts_under_persistent_failure (c : AgentGateClient)
    (method path : string) (json_data : value) (w : world) :
  let req := {| method := method; path := path; json_data := json_data |} in
  (0 ≤ _max_retries c)%Z →
  (∀ n, retryable_outcome (_http c n req)) →
  ∃ r w',
    _request c method path json_data w = (r, w')
    ∧ _RETRY_BACKOFFS = [0.5%float; 1.0%float; 2.0%float]
    ∧ StronglySorted float_lt _RETRY_BACKOFFS
    ∧ slept w' = slept w ++ take (Z.to_nat (_max_retries c)) _RETRY_BACKOFFS
    ∧ sent w' = sent w ++ replicate (1 + Z.to_nat (_max_retries c) `min` 3) req
    ∧ call_count w' = call_count w + (1 + Z.to_nat (_max_retries c) `min` 3).
Proof.
  intros req Hn Hretry.
  destruct (_request c method path json_data w) as [r w'] eqn:Hreq.
  exists r, w'. split; [reflexivity|]. split; [reflexivity|].
  split; [apply _RETRY_BACKOFFS_increasing|].
  unfold _request in Hreq. fold req in Hreq.
  apply _request_loop_persistent in Hreq
    as (last' & wj & Hsent & Hslept & -> & _); [|done].
  rewrite length_slice_to_backoffs in Hsent by done.
  rewrite slice_to_nonneg in Hslept by done.
  assert (sent (push wj req)
          = sent w ++ replicate (1 + Z.to_nat (_max_retries c) `min` 3) req) as Hs.
  { cbn [push sent]. rewrite Hsent, <- app_assoc. f_equal.
    change [req] with (replicate 1 req). rewrite <- replicate_add.
    f_equal. lia. }
  split; [exact Hslept|]. split; [exact Hs|].
  unfold call_count. rewrite Hs, length_app, length_replicate. reflexivity.
Qed.

(** Three retries against a server that keeps answering 503. *)
Lemma attempts_under_persistent_failure_witness :
  ∃ r w',
    _request (client DENY 3 (always (json_response 503 VNone)))
      "GET" "/api/policies" VNone w0 = (r, w')
    ∧ slept w' = [0.5%float; 1.0%float; 2.0%float]
    ∧ call_count w' = 4.
Proof.
  destruct (attempts_under_persistent_failure
              (client DENY 3 (always (json_response 503 VNone)))
              "GET" "/api/policies" VNone w0)
    as (r & w' & Hreq & _ & _ & Hslept & _ & Hcalls).
  - cbn. lia.
  - intros n. cbn. apply elem_of_RETRYABLE. lia.
  - exists r, w'. split; [exact Hreq|]. split; [exact Hslept|exact Hcalls].
Defined.

(** C4 as stated fails: with [max_retries = 4] and a server that keeps
    answering 503 the transport sees 4 calls, while [1 + n] is 5. *)
Lemma attempts_not_one_plus_max_retries :
  let c := client DENY 4 (always (json_response 503 VNone)) in
  call_count (_request c "GET" "/api/policies" VNone w0).2 = 4
  ∧ 1 + Z.to_nat (_max_retries c) = 5.
Proof. split; reflexivity. Qed.







(** ** Client errors and the fallback *)

(** A 400, 401 or 403 is never retried: whatever the body, [_request] leaves
    with an exception after one call and without sleeping. *)
Lemma client_error_single_attempt (c : AgentGateClient) (method path : string)
    (json_data : value) (w : world) (resp : Response.t) :
  let req := {| method := method; path := path; json_data := json_data |} in
  _http c (call_count w) req = Responded resp →
  Response.status_code resp ∈ _CLIENT_ERROR_STATUS →
  ∃ e, _request c method path json_data w = (Raise (EAgentGate e), push w req).
Proof.
  intros req Ho Hs. unfold _request. fold req.
  change (seq 0 (1 + ?n)) with (0 :: seq 1 n). cbn [_request_loop].
  unfold one_attempt, try_body, bind, http_request_. rewrite Ho.
  rewrite (bool_decide_eq_true_2 _ Hs). unfold resp_json.
  destruct (Response.json resp) as [msg|data]; [eexists; reflexivity|].
  cbn. destruct (raise_http_error_cases (A:=ctl) (Response.status_code resp) data
                   (push w req)) as [(ei & _ & E)|(msg & E)];
    unfold push in E; rewrite E; eexists; reflexivity.
Qed.

(** With a body that decodes and a usable "error" member, the error of a 400,
    401 or 403 carries status, message, type and body, and
    [request_approval_safe] re-raises it. *)
Lemma client_error_propagates (c : AgentGateClient) (action : string)
    (params context : option (gmap string value))
    (urgency : Urgency + string) (expires_at : option string) (w : world)
    (resp : Response.t) (data : value) (error_info : gmap string value) :
  let req := {| method := "POST"; path := "/api/requests";
                json_data := VDict (request_body action params context urgency expires_at) |} in
  _http c (call_count w) req = Responded resp →
  Response.status_code resp ∈ _CLIENT_ERROR_STATUS →
  Response.json resp = inr data →
  error_info_of data = VDict error_info →
  request_approval_safe c action params context urgency expires_at w
  = (Raise (EAgentGate (http_error (Response.status_code resp) data error_info)),
     push w req).
Proof.
  intros req Ho Hs Hj He.
  unfold request_approval_safe, request_approval, bind, _request. fold req.
  change (seq 0 (1 + ?n)) with (0 :: seq 1 n). cbn [_request_loop].
  rewrite (one_attempt_http_error _ _ _ _ _ _ resp data error_info);
    try done.
  - by apply client_ge_400.
  - intros Hr. by apply retryable_not_client in Hr.
Qed.

(** C1, where the code departs from it. The server answers 401 with the body
    [{"error": "Unauthorized"}] (the "error" member is a string, as in the
    body of the repository's own 500 test). Reading the message off that
    string fails inside the [try], the failure is caught by the last [except]
    clause, and the error that leaves [_request] has the connectivity flag set
    and no status code. Under fallback allow, [request_approval_safe] then
    returns an approved fallback record instead of raising. One call is made. *)
Lemma unauthorized_string_error_falls_back :
  let c := client ALLOW 3 (always unauthorized_string) in
  let req := {| method := "POST"; path := "/api/requests";
                json_data := VDict {[ "action" := VStr "deploy";
                                      "urgency" := VStr "normal" ]} |} in
  request_approval c "deploy" None None (inl NORMAL) None w0
  = (Raise (EAgentGate (connectivity_error
              "Unexpected error: 'str' object has no attribute 'get'")),
     {| sent := [req]; slept := [] |})
  ∧ request_approval_safe c "deploy" None None (inl NORMAL) None w0
    = (Ok (_fallback_request c "deploy" None None), {| sent := [req]; slept := [] |})
  ∧ ApprovalRequest.status (_fallback_request c "deploy" None None) = VStr "approved"
  ∧ ApprovalRequest.decision (_fallback_request c "deploy" None None) = VStr "approved".
Proof. cbv zeta. split; [|split; [|split; reflexivity]]; vm_compute; reflexivity. Qed.

(** The repository's fallback tests: the connection is refused, no retries. *)
Lemma request_approval_safe_fallback_witness :
  ∃ r,
    request_approval_safe (client DENY 0 (always (ConnectFailed "refused")))
      "deploy" None None (inl NORMAL) None w0
    = (Ok r, {| sent := [ {| method := "POST"; path := "/api/requests";
                             json_data := VDict {[ "action" := VStr "deploy";
                                                   "urgency" := VStr "normal" ]} |} ];
                slept := [] |})
    ∧ ApprovalRequest.id r = VStr "fallback"
    ∧ ApprovalRequest.status r = VStr "denied"
    ∧ ApprovalRequest.decision r = VStr "denied".
Proof.
  destruct (request_approval_safe_fallback
              (client DENY 0 (always (ConnectFailed "refused")))
              "deploy" None None (inl NORMAL) None
              (connectivity_error "Connection failed: refused") w0
              {| sent := [ {| method := "POST"; path := "/api/requests";
                              json_data := VDict {[ "action" := VStr "deploy";
                                                    "urgency" := VStr "normal" ]} |} ];
                 slept := [] |})
    as (r & Hsafe & Hid & _ & _ & _ & Hdeny & _).
  - vm_compute. reflexivity.
  - reflexivity.
  - exists r. destruct (Hdeny eq_refl) as [Hs Hd].
    split; [exact Hsafe|]. split; [exact Hid|]. split; [exact Hs|exact Hd].
Defined.

(** ** Further properties of the operations *)



(** The repository's test of a 401 under fallback allow. *)
Lemma client_error_propagates_witness :
  request_approval_safe
    (client ALLOW 0
       (always (json_response 401
                  (VDict {[ "error" := VDict {[ "message" := VStr "Unauthorized" ]} ]}))))
    "deploy" None None (inl NORMAL) None w0
  = (Raise (EAgentGate
       {| AgentGateError.message := VStr "Unauthorized";
          AgentGateError.status_code := Some 401%Z;
          AgentGateError.error_type := VNone;
          AgentGateError.response_data :=
            VDict {[ "error" := VDict {[ "message" := VStr "Unauthorized" ]} ]};
          AgentGateError.is_connectivity_error := false |}),
     {| sent := [ {| method := "POST"; path := "/api/requests";
                     json_data := VDict {[ "action" := VStr "deploy";
                                           "urgency" := VStr "normal" ]} |} ];
        slept := [] |}).
Proof.
  refine (client_error_propagates
           (client ALLOW 0
              (always (json_response 401
                         (VDict {[ "error" := VDict {[ "message" := VStr "Unauthorized" ]} ]}))))
           "deploy" None None (inl NORMAL) None w0
           {| Response.status_code := 401;
              Response.json :=
                inr (VDict {[ "error" := VDict {[ "message" := VStr "Unauthorized" ]} ]}) |}
           (VDict {[ "error" := VDict {[ "message" := VStr "Unauthorized" ]} ]})
           {[ "message" := VStr "Unauthorized" ]} _ _ _ _).
  - reflexivity.
  - cbn. rewrite elem_of_CLIENT_ERROR. lia.
  - reflexivity.
  - reflexivity.
Defined.

(** A 403 whose body is not JSON, with three retries configured: one call. *)
Lemma client_error_single_attempt_witness :
  ∃ e,
    _request
      (client DENY 3
         (always (Responded {| Response.status_code := 403;
                               Response.json := inl "Expecting value" |})))
      "GET" "/api/policies" VNone w0
    = (Raise (EAgentGate e),
       {| sent := [ {| method := "GET"; path := "/api/policies"; json_data := VNone |} ];
          slept := [] |}).
Proof.
  apply (client_error_single_attempt
           (client DENY 3
              (always (Responded {| Response.status_code := 403;
                                    Response.json := inl "Expecting value" |})))
           "GET" "/api/policies" VNone w0
           {| Response.status_code := 403; Response.json := inl "Expecting value" |}).
  - reflexivity.
  - cbn. rewrite elem_of_CLIENT_ERROR. lia.
Defined.

(** [is_decided] is computed from the decoded status: it is true exactly when
    the status is one of the strings "approved", "denied", "expired". *)
Lemma is_decided_iff (data : gmap string value) :
  DecisionResult.is_decided (DecisionResult.from_response data) = true
  ↔ ∃ s, DecisionResult.status (DecisionResult.from_response data) = VStr s
         ∧ (s = "approved" ∨ s = "denied" ∨ s = "expired").
Proof.
  cbn. destruct (dict_get data "status" (VStr "pending")) as [| | | |s| |];
    cbn; try (split; [discriminate|intros (? & [=] & _)]).
  rewrite bool_decide_eq_true, !elem_of_cons, elem_of_nil.
  split.
  - intros H. exists s. split; [reflexivity|tauto].
  - intros (s' & [= <-] & H). tauto.
Qed.

(** The body [request_approval] posts always has "action" and "urgency", and
    has no "params", "context" or "expiresAt" member when that argument is not
    given: nothing is sent as null. *)
Lemma request_body_members (action : string)
    (params context : option (gmap string value))
    (urgency : Urgency + string) (expires_at : option string) :
  let body := request_body action params context urgency expires_at in
  body !! "action" = Some (VStr action)
  ∧ body !! "urgency" = Some (VStr match urgency with
                                   | inl u => Urgency_value u
                                   | inr s => s
                                   end)
  ∧ (params = None → body !! "params" = None)
  ∧ (context = None → body !! "context" = None)
  ∧ (expires_at = None → body !! "expiresAt" = None)
  ∧ (∀ k, body !! k ≠ Some VNone).
Proof.
  cbv zeta. unfold request_body.
  destruct (truthy_dict params) eqn:Hp, (truthy_dict context) eqn:Hc,
    (truthy_str expires_at) eqn:He;
    (split; [by simplify_map_eq|]); (split; [by simplify_map_eq|]);
    (split; [intros ->; try discriminate; by simplify_map_eq|]);
    (split; [intros ->; try discriminate; by simplify_map_eq|]);
    (split; [intros ->; try discriminate; by simplify_map_eq|]);
    intros k Hk;
    repeat (apply lookup_insert_Some in Hk as [[_ [=]]|[_ Hk]]);
    by apply lookup_singleton_Some in Hk as [_ [=]].
Qed.

(** ** The retry loop, for every transport *)

Lemma slice_to_is_prefix {A} (l : list A) (n : Z) : ∃ m, slice_to l n = take m l.
Proof. unfold slice_to. destruct (0 <=? n)%Z; eexists; reflexivity. Qed.

Lemma length_backoffs_le (n : Z) : length (slice_to _RETRY_BACKOFFS n) ≤ 3.
Proof.
  destruct (slice_to_is_prefix _RETRY_BACKOFFS n) as [m ->].
  rewrite length_take. cbn. lia.
Qed.

Lemma take_backoffs (n : Z) (j : nat) :
  j ≤ length (slice_to _RETRY_BACKOFFS n) →
  take j (slice_to _RETRY_BACKOFFS n) = take j _RETRY_BACKOFFS.
Proof.
  destruct (slice_to_is_prefix _RETRY_BACKOFFS n) as [m ->].
  rewrite length_take, take_take. intros Hj. f_equal. lia.
Qed.

Lemma call_count_after (w : world) (req : http_request) (k : nat) (ds : list float) :
  call_count {| sent := sent w ++ replicate k req; slept := ds |} = call_count w + k.
Proof. unfold call_count; cbn. by rewrite length_app, length_replicate. Qed.

(** Whatever the transport does, [_request] makes at least one call and at
    most [1 + len(backoffs)], which is at most 4; every call carries the same
    request; and it sleeps once between two calls, for the back-offs 0.5, 1.0,
    2.0 in this order. *)
Theorem _request_calls_and_sleeps (c : AgentGateClient)
    (method path : string) (json_data : value) (w : world) :
  let req := {| method := method; path := path; json_data := json_data |} in
  let backoffs := slice_to _RETRY_BACKOFFS (_max_retries c) in
  ∃ r w' j,
    _request c method path json_data w = (r, w')
    ∧ j ≤ length backoffs ∧ length backoffs ≤ 3
    ∧ sent w' = sent w ++ replicate (S j) req
    ∧ slept w' = slept w ++ take j _RETRY_BACKOFFS.
Proof.
  intros req backoffs.
  destruct (_request c method path json_data w) as [r w'] eqn:Hreq.
  unfold _request in Hreq. fold req backoffs in Hreq.
  apply _request_loop_final in Hreq
    as (j & last' & wj & Hj & Hsent & Hslept & Hfin); [|reflexivity].
  pose proof (one_attempt_finished _ _ _ _ _ _ _ _ Hfin) as ->.
  exists r, (push wj req), j. split; [reflexivity|]. split; [exact Hj|].
  split; [apply length_backoffs_le|]. split.
  - cbn [push sent]. rewrite Hsent, <- app_assoc, replicate_S_end. reflexivity.
  - cbn [push slept]. rewrite Hslept, drop_0. f_equal. by apply take_backoffs.
Qed.

Section Retries.
Variables (c : AgentGateClient) (backoffs : list float) (req : http_request).

(** A connect or timeout failure with no attempt left: the error is raised. *)
Lemma one_attempt_connect_exhausted last (attempt : nat) w msg :
  _http c (call_count w) req = ConnectFailed msg →
  length backoffs ≤ attempt →
  one_attempt c backoffs req last attempt w
  = (Finished (Raise (EAgentGate
                        (connectivity_error ("Connection failed: " +:+ msg)))),
     push w req).
Proof.
  intros Ho Hge. unfold one_attempt, try_body, bind, http_request_.
  rewrite Ho.
  assert ((attempt <? length backoffs)%nat = false) as -> by (by apply Nat.ltb_ge).
  reflexivity.
Qed.

(** Any other exception of the transport: the error is raised at once. *)
Lemma one_attempt_other_failure last (attempt : nat) w msg :
  _http c (call_count w) req = OtherFailure msg →
  one_attempt c backoffs req last attempt w
  = (Finished (Raise (EAgentGate
                        (connectivity_error ("Unexpected error: " +:+ msg)))),
     push w req).
Proof.
  intros Ho. unfold one_attempt, try_body, bind, http_request_.
  rewrite Ho. reflexivity.
Qed.

(** A body that does not decode, on a response that is not retried. *)
Lemma one_attempt_undecodable last (attempt : nat) w resp msg :
  _http c (call_count w) req = Responded resp →
  (Response.status_code resp ∈ _RETRYABLE_STATUS → length backoffs ≤ attempt) →
  Response.json resp = inl msg →
  one_attempt c backoffs req last attempt w
  = (Finished (Raise (EAgentGate
                        (connectivity_error ("Unexpected error: " +:+ msg)))),
     push w req).
Proof.
  intros Ho Hr Hj. unfold one_attempt, try_body, bind, http_request_.
  rewrite Ho. unfold resp_json. rewrite Hj.
  case_bool_decide as Hc; [reflexivity|].
  case_bool_decide as Hr'; [|reflexivity].
  assert ((attempt <? length backoffs)%nat = false) as ->
    by (apply Nat.ltb_ge, Hr, Hr').
  reflexivity.
Qed.

(** [k] retryable outcomes in a row, while attempts remain, take the loop [k]
    attempts further: [k] calls and the next [k] back-offs. *)
Lemma _request_loop_retries (k : nat) :
  ∀ (a m : nat) (last : option string) (w : world),
    a + k ≤ length backoffs →
    (∀ i, i < k → retryable_outcome (_http c (call_count w + i) req)) →
    ∃ last',
      _request_loop c backoffs req last (seq a (k + m)) w
      = _request_loop c backoffs req last' (seq (a + k) m)
          {| sent := sent w ++ replicate k req;
             slept := slept w ++ take k (drop a backoffs) |}.
Proof.
  induction k as [|k IH]; intros a m last w Hlen Hretry.
  - exists last. rewrite Nat.add_0_r. destruct w as [ss ds]; cbn.
    by rewrite !app_nil_r.
  - destruct (lookup_lt_is_Some_2 backoffs a) as [d Hd]; [lia|].
    assert (∃ last1,
      one_attempt c backoffs req last a w
      = (Next last1, {| sent := sent w ++ [req]; slept := slept w ++ [d] |}))
      as [last1 Hone].
    { pose proof (Hretry 0 ltac:(lia)) as H0. rewrite Nat.add_0_r in H0.
      destruct (_http c (call_count w) req) as [r1|msg|msg] eqn:Ho; cbn in H0.
      - eexists. by apply (one_attempt_retry_status _ _ _ _ _ _ r1).
      - eexists. by apply (one_attempt_retry_connect _ _ _ _ _ _ msg).
      - done. }
    destruct (IH (S a) m last1
                {| sent := sent w ++ [req]; slept := slept w ++ [d] |})
      as [last' Hrest]; [lia| |].
    { intros i Hi. rewrite call_count_push.
      replace (S (call_count w) + i) with (call_count w + S i) by lia.
      apply Hretry. lia. }
    exists last'. change (S k + m) with (S (k + m)). rewrite <- cons_seq.
    cbn [_request_loop]. rewrite Hone, Hrest. cbn [sent slept].
    replace (S a + k) with (a + S k) by lia.
    rewrite <- !app_assoc, (drop_S _ _ _ Hd). reflexivity.
Qed.

End Retries.

(** After [k] retryable outcomes, [_request] is at attempt [k]. *)
Lemma _request_after_retries (c : AgentGateClient) (method path : string)
    (json_data : value) (w : world) (k : nat) :
  let req := {| method := method; path := path; json_data := json_data |} in
  let backoffs := slice_to _RETRY_BACKOFFS (_max_retries c) in
  k ≤ length backoffs →
  (∀ i, i < k → retryable_outcome (_http c (call_count w + i) req)) →
  ∃ last',
    _request c method path json_data w
    = _request_loop c backoffs req last' (seq k (S (length backoffs - k)))
        {| sent := sent w ++ replicate k req; slept := slept w ++ take k backoffs |}.
Proof.
  intros req backoffs Hk Hretry. unfold _request. fold req backoffs.
  destruct (_request_loop_retries c backoffs req k 0 (S (length backoffs - k)) None w)
    as [last' H]; [lia|done|].
  exists last'. rewrite drop_0 in H. change (0 + k) with k in H.
  rewrite <- H. do 2 f_equal. lia.
Qed.

(** After any number [k] of retryable outcomes that the retry budget covers,
    a response with a status below 400 whose body decodes ends the request:
    [_request] returns the decoded body, the transport has seen [k + 1] calls,
    and the client has slept for the first [k] back-offs. *)
Theorem retries_then_success (c : AgentGateClient) (method path : string)
    (json_data : value) (w : world) (k : nat) (resp : Response.t) (data : value) :
  let req := {| method := method; path := path; json_data := json_data |} in
  k ≤ length (slice_to _RETRY_BACKOFFS (_max_retries c)) →
  (∀ i, i < k → retryable_outcome (_http c (call_count w + i) req)) →
  _http c (call_count w + k) req = Responded resp →
  (Response.status_code resp < 400)%Z →
  Response.json resp = inr data →
  _request c method path json_data w
  = (Ok data, {| sent := sent w ++ replicate (S k) req;
                 slept := slept w ++ take k _RETRY_BACKOFFS |}).
Proof.
  intros req Hk Hretry Ho Hs Hj.
  destruct (_request_after_retries c method path json_data w k Hk Hretry)
    as [last' ->]. fold req.
  cbn [seq _request_loop].
  rewrite (one_attempt_success _ _ _ _ _ _ resp data);
    [|by rewrite call_count_after|done|done].
  unfold push; cbn [sent slept].
  by rewrite <- app_assoc, <- replicate_S_end, take_backoffs.
Qed.

Lemma retries_then_success_witness :
  _request (client DENY 3 flaky_then_ok) "GET" "/api/requests/req_1" VNone w0
  = (Ok pending_req_1,
     {| sent := [get_req_1; get_req_1; get_req_1];
        slept := [0.5%float; 1.0%float] |}).
Proof.
  refine (retries_then_success (client DENY 3 flaky_then_ok)
            "GET" "/api/requests/req_1" VNone w0 2
            {| Response.status_code := 200; Response.json := inr pending_req_1 |}
            pending_req_1 _ _ _ _ _).
  - vm_compute. repeat constructor.
  - intros [|[|i]] Hi; cbn; [apply elem_of_RETRYABLE; lia|exact I|lia].
  - reflexivity.
  - cbn. lia.
  - reflexivity.
Defined.

(** When the calls keep having retryable outcomes and the last one the budget
    allows fails to connect (or times out), [_request] raises a
    connectivity-flagged error whose message is "Connection failed: " followed
    by the text of that last failure; it has made all its [1 + len(backoffs)]
    calls and slept for every back-off. *)
Theorem connect_failure_exhausted (c : AgentGateClient) (method path : string)
    (json_data : value) (w : world) (msg : string) :
  let req := {| method := method; path := path; json_data := json_data |} in
  let backoffs := slice_to _RETRY_BACKOFFS (_max_retries c) in
  (∀ i, i < length backoffs → retryable_outcome (_http c (call_count w + i) req)) →
  _http c (call_count w + length backoffs) req = ConnectFailed msg →
  _request c method path json_data w
  = (Raise (EAgentGate (connectivity_error ("Connection failed: " +:+ msg))),
     {| sent := sent w ++ replicate (S (length backoffs)) req;
        slept := slept w ++ backoffs |}).
Proof.
  intros req backoffs Hretry Ho.
  destruct (_request_after_retries c method path json_data w (length backoffs)
              (le_n _) Hretry) as [last' ->]. fold req backoffs.
  cbn [seq _request_loop].
  rewrite (one_attempt_connect_exhausted _ _ _ _ _ _ msg);
    [|by rewrite call_count_after|done].
  unfold push; cbn [sent slept].
  by rewrite <- app_assoc, <- replicate_S_end, firstn_all.
Qed.

Lemma connect_failure_exhausted_witness :
  _request (client DENY 2 unreachable) "GET" "/api/policies" VNone w0
  = (Raise (EAgentGate (connectivity_error "Connection failed: refused")),
     {| sent := replicate 3 {| method := "GET"; path := "/api/policies";
                               json_data := VNone |};
        slept := [0.5%float; 1.0%float] |}).
Proof.
  refine (connect_failure_exhausted (client DENY 2 unreachable)
            "GET" "/api/policies" VNone w0 "refused" _ _).
  - intros i _. exact I.
  - reflexivity.
Defined.

(** When the server cannot be reached on any call, [request_approval_safe]
    does not raise: after [1 + len(backoffs)] calls and every back-off it
    returns the fallback record, whatever the arguments. *)
Theorem request_approval_safe_unreachable (c : AgentGateClient) (action : string)
    (params context : option (gmap string value))
    (urgency : Urgency + string) (expires_at : option string) (w : world) :
  let req := {| method := "POST"; path := "/api/requests";
                json_data := VDict (request_body action params context urgency expires_at) |} in
  let backoffs := slice_to _RETRY_BACKOFFS (_max_retries c) in
  (∀ n, ∃ msg, _http c n req = ConnectFailed msg) →
  request_approval_safe c action params context urgency expires_at w
  = (Ok (_fallback_request c action params context),
     {| sent := sent w ++ replicate (S (length backoffs)) req;
        slept := slept w ++ backoffs |}).
Proof.
  intros req backoffs Hdown.
  destruct (Hdown (call_count w + length backoffs)) as [msg Hlast].
  unfold request_approval_safe, request_approval, bind.
  destruct (_request_after_retries c "POST" "/api/requests"
              (VDict (request_body action params context urgency expires_at))
              w (length backoffs) (le_n _)) as [last' ->].
  { intros i _. destruct (Hdown (call_count w + i)) as [m Hm].
    fold req. by rewrite Hm. }
  fold req backoffs. cbn [seq _request_loop].
  rewrite (one_attempt_connect_exhausted _ _ _ _ _ _ msg);
    [|by rewrite call_count_after|done].
  unfold push; cbn [sent slept connectivity_error AgentGateError.is_connectivity_error].
  by rewrite <- app_assoc, <- replicate_S_end, firstn_all.
Qed.

Lemma request_approval_safe_unreachable_witness :
  request_approval_safe (client ALLOW 1 unreachable)
    "deploy" None None (inl NORMAL) None w0
  = (Ok (_fallback_request (client ALLOW 1 unreachable) "deploy" None None),
     {| sent := [post_deploy; post_deploy]; slept := [0.5%float] |})
  ∧ ApprovalRequest.status
      (_fallback_request (client ALLOW 1 unreachable) "deploy" None None)
    = VStr "approved".
Proof.
  split; [|reflexivity].
  refine (request_approval_safe_unreachable (client ALLOW 1 unreachable)
            "deploy" None None (inl NORMAL) None w0 _).
  intros n. exists "refused". reflexivity.
Defined.

(** An exception of the transport that is not a connect or timeout failure
    is never retried: at whatever attempt it happens, [_request] raises a
    connectivity-flagged error with message "Unexpected error: " followed by
    the text of the exception, and makes no further call. *)
Theorem unexpected_failure_ends_request (c : AgentGateClient) (method path : string)
    (json_data : value) (w : world) (k : nat) (msg : string) :
  let req := {| method := method; path := path; json_data := json_data |} in
  k ≤ length (slice_to _RETRY_BACKOFFS (_max_retries c)) →
  (∀ i, i < k → retryable_outcome (_http c (call_count w + i) req)) →
  _http c (call_count w + k) req = OtherFailure msg →
  _request c method path json_data w
  = (Raise (EAgentGate (connectivity_error ("Unexpected error: " +:+ msg))),
     {| sent := sent w ++ replicate (S k) req;
        slept := slept w ++ take k _RETRY_BACKOFFS |}).
Proof.
  intros req Hk Hretry Ho.
  destruct (_request_after_retries c method path json_data w k Hk Hretry)
    as [last' ->]. fold req.
  cbn [seq _request_loop].
  rewrite (one_attempt_other_failure _ _ _ _ _ _ msg);
    [|by rewrite call_count_after].
  unfold push; cbn [sent slept].
  by rewrite <- app_assoc, <- replicate_S_end, take_backoffs.
Qed.

Lemma unexpected_failure_ends_request_witness :
  _request (client DENY 3 (always (OtherFailure "Server disconnected")))
    "GET" "/api/policies" VNone w0
  = (Raise (EAgentGate (connectivity_error "Unexpected error: Server disconnected")),
     {| sent := [ {| method := "GET"; path := "/api/policies"; json_data := VNone |} ];
        slept := [] |}).
Proof.
  refine (unexpected_failure_ends_request
            (client DENY 3 (always (OtherFailure "Server disconnected")))
            "GET" "/api/policies" VNone w0 0 "Server disconnected" _ _ _).
  - vm_compute. repeat constructor.
  - intros i Hi. lia.
  - reflexivity.
Defined.

(** ** What [_request] never raises *)

Section ErrorShapes.
Variables (c : AgentGateClient) (backoffs : list float) (req : http_request).

(** The three errors an attempt can end the request with. *)
Lemma one_attempt_error_shapes last attempt w x w' :
  one_attempt c backoffs req last attempt w = (Finished (Raise x), w') →
  (∃ status data error_info, x = EAgentGate (http_error status data error_info))
  ∨ (∃ msg, x = EAgentGate (connectivity_error ("Connection failed: " +:+ msg)))
  ∨ (∃ msg, x = EAgentGate (connectivity_error ("Unexpected error: " +:+ msg))).
Proof.
  intros H. unfold one_attempt, try_body, bind, http_request_, resp_json in H.
  destruct (_http c (call_count w) req) as [resp|msg|msg].
  - destruct (Response.json resp) as [jmsg|data];
      repeat case_bool_decide; cbn in H;
      repeat match type of H with
             | context [(?a <? ?b)%nat] => destruct (a <? b)%nat eqn:?; cbn in H
             | context [(?a <=? ?b)%Z] => destruct (a <=? b)%Z; cbn in H
             | context [backoffs !! ?a] => destruct (backoffs !! a) eqn:?; cbn in H
             | context [@raise_http_error ?A ?s ?d ?w1] =>
                 let E := fresh "Hraise" in
                 destruct (@raise_http_error_cases A s d w1)
                   as [(? & _ & E)|(? & E)];
                 rewrite E in H; clear E; cbn in H
             end;
      simplify_eq; eauto 10.
    all: exfalso;
      match goal with
      | Hlt : (?a <? length backoffs)%nat = true, Hd : backoffs !! ?a = None |- _ =>
          destruct (lookup_backoff backoffs a Hlt) as [? E]; rewrite E in Hd;
          discriminate
      end.
  - destruct (attempt <? length backoffs)%nat eqn:Hlt.
    + destruct (lookup_backoff backoffs attempt Hlt) as [d Hd].
      rewrite Hd in H. discriminate.
    + simplify_eq; eauto.
  - simplify_eq; eauto.
Qed.

End ErrorShapes.

(** The code after the retry loop is never reached: no call of [_request]
    raises the [RuntimeError] "Retry loop exhausted unexpectedly" or the
    "Connection failed after retries: ..." error. Every exception it raises
    is one of three: the error built from a response of status 400 or more,
    "Connection failed: ..." or "Unexpected error: ...". *)
Theorem after_loop_unreachable (c : AgentGateClient) (method path : string)
    (json_data : value) (w : world) :
  ∃ r w',
    _request c method path json_data w = (r, w')
    ∧ (∀ cls msg, r ≠ Raise (EOther cls msg))
    ∧ (∀ msg, r ≠ Raise (EAgentGate
                           (connectivity_error ("Connection failed after retries: " +:+ msg))))
    ∧ (∀ x, r = Raise x →
         (∃ status data error_info, x = EAgentGate (http_error status data error_info))
         ∨ (∃ msg, x = EAgentGate (connectivity_error ("Connection failed: " +:+ msg)))
         ∨ (∃ msg, x = EAgentGate (connectivity_error ("Unexpected error: " +:+ msg)))).
Proof.
  destruct (_request c method path json_data w) as [r w'] eqn:Hreq.
  exists r, w'. split; [reflexivity|].
  unfold _request in Hreq.
  apply _request_loop_final in Hreq
    as (j & last' & wj & _ & _ & _ & Hfin); [|reflexivity].
  assert (∀ x, r = Raise x →
    (∃ status data error_info, x = EAgentGate (http_error status data error_info))
    ∨ (∃ msg, x = EAgentGate (connectivity_error ("Connection failed: " +:+ msg)))
    ∨ (∃ msg, x = EAgentGate (connectivity_error ("Unexpected error: " +:+ msg))))
    as Hshape.
  { intros x ->. by eapply one_attempt_error_shapes. }
  split; [|split; [|exact Hshape]].
  - intros cls msg ->.
    destruct (Hshape _ eq_refl) as [(? & ? & ? & [=])|[(? & [=])|(? & [=])]].
  - intros msg ->.
    destruct (Hshape _ eq_refl) as [(? & ? & ? & [=])|[(? & [=])|(? & [=])]].
Qed.

(** ** The operations, end to end *)

(** [request_approval_safe] never lets a connectivity-flagged error out: an
    [AgentGateError] it raises is unflagged and is the one [request_approval]
    raised, with the same effects. *)
Theorem request_approval_safe_raises_unflagged (c : AgentGateClient) (action : string)
    (params context : option (gmap string value))
    (urgency : Urgency + string) (expires_at : option string)
    (e : AgentGateError.t) (w w' : world) :
  request_approval_safe c action params context urgency expires_at w
    = (Raise (EAgentGate e), w') →
  AgentGateError.is_connectivity_error e = false
  ∧ request_approval c action params context urgency expires_at w
    = (Raise (EAgentGate e), w').
Proof.
  unfold request_approval_safe.
  destruct (request_approval c action params context urgency expires_at w)
    as [[a|[e1| |]] w1]; try discriminate.
  destruct (AgentGateError.is_connectivity_error e1) eqn:Hflag; [discriminate|].
  intros [= <- <-]. by split.
Qed.

Lemma request_approval_safe_raises_unflagged_witness :
  let c := client ALLOW 0
             (always (json_response 401
                        (VDict {[ "error" := VDict {[ "message" := VStr "Unauthorized" ]} ]}))) in
  let e := http_error 401
             (VDict {[ "error" := VDict {[ "message" := VStr "Unauthorized" ]} ]})
             {[ "message" := VStr "Unauthorized" ]} in
  AgentGateError.is_connectivity_error e = false
  ∧ request_approval c "deploy" None None (inl NORMAL) None w0
    = (Raise (EAgentGate e), {| sent := [post_deploy]; slept := [] |}).
Proof.
  cbv zeta.
  refine (request_approval_safe_raises_unflagged _
            "deploy" None None (inl NORMAL) None _ w0 _ _).
  vm_compute. reflexivity.
Defined.

(** When the server answers with a status below 400 and a JSON body that is
    not an object (null, a list, a string, ...), [request_approval] raises a
    bare [AttributeError], not an [AgentGateError]; [request_approval_safe]
    does not catch it, so no fallback record is returned, and
    [check_decision] fails in the same way. *)
Theorem non_mapping_body_attribute_error (c : AgentGateClient) (action : string)
    (params context : option (gmap string value))
    (urgency : Urgency + string) (expires_at : option string)
    (request_id : string) (w : world) (resp : Response.t) (data : value) :
  let post := {| method := "POST"; path := "/api/requests";
                 json_data := VDict (request_body action params context urgency expires_at) |} in
  let get := {| method := "GET"; path := "/api/requests/" +:+ request_id;
                json_data := VNone |} in
  let err := EOther "AttributeError"
               ("'" +:+ type_name data +:+ "' object has no attribute 'get'") in
  (Response.status_code resp < 400)%Z →
  Response.json resp = inr data →
  (∀ d, data ≠ VDict d) →
  (_http c (call_count w) post = Responded resp →
     request_approval_safe c action params context urgency expires_at w
     = (Raise err, push w post))
  ∧ (_http c (call_count w) get = Responded resp →
       check_decision c request_id w = (Raise err, push w get)).
Proof.
  intros post get err Hs Hj Hnd.
  assert (∀ T (f : gmap string value → T) w1,
            call_from_response f data w1 = (Raise err, w1)) as Hcall.
  { intros T f w1. destruct data; try reflexivity. by destruct (Hnd d). }
  split; intros Ho.
  - unfold request_approval_safe, request_approval, bind, _request. fold post.
    change (seq 0 (1 + ?n)) with (0 :: seq 1 n). cbn [_request_loop].
    rewrite (one_attempt_success _ _ _ _ _ _ resp data) by done.
    by rewrite Hcall.
  - unfold check_decision, bind, _request. fold get.
    change (seq 0 (1 + ?n)) with (0 :: seq 1 n). cbn [_request_loop].
    rewrite (one_attempt_success _ _ _ _ _ _ resp data) by done.
    by rewrite Hcall.
Qed.

Lemma non_mapping_body_attribute_error_witness :
  request_approval_safe (client ALLOW 3 (always ok_null))
    "deploy" None None (inl NORMAL) None w0
  = (Raise (EOther "AttributeError" "'NoneType' object has no attribute 'get'"),
     {| sent := [post_deploy]; slept := [] |})
  ∧ check_decision (client ALLOW 3 (always ok_null)) "req_1" w0
    = (Raise (EOther "AttributeError" "'NoneType' object has no attribute 'get'"),
       {| sent := [get_req_1]; slept := [] |}).
Proof.
  destruct (non_mapping_body_attribute_error (client ALLOW 3 (always ok_null))
              "deploy" None None (inl NORMAL) None "req_1" w0
              {| Response.status_code := 200; Response.json := inr VNone |} VNone)
    as [Hpost Hget].
  - cbn. lia.
  - reflexivity.
  - intros d. discriminate.
  - split; [exact (Hpost eq_refl)|exact (Hget eq_refl)].
Defined.

(** After any number [k] of retryable outcomes that the retry budget covers,
    an answer with a status below 400 whose body is a JSON object makes
    [check_decision] return the decoded [DecisionResult]. All [k + 1] calls
    are a GET of "/api/requests/<request_id>" without a body. *)
Theorem check_decision_after_retries (c : AgentGateClient) (request_id : string)
    (w : world) (k : nat) (resp : Response.t) (d : gmap string value) :
  let req := {| method := "GET"; path := "/api/requests/" +:+ request_id;
                json_data := VNone |} in
  k ≤ length (slice_to _RETRY_BACKOFFS (_max_retries c)) →
  (∀ i, i < k → retryable_outcome (_http c (call_count w + i) req)) →
  _http c (call_count w + k) req = Responded resp →
  (Response.status_code resp < 400)%Z →
  Response.json resp = inr (VDict d) →
  check_decision c request_id w
  = (Ok (DecisionResult.from_response d),
     {| sent := sent w ++ replicate (S k) req;
        slept := slept w ++ take k _RETRY_BACKOFFS |}).
Proof.
  intros req Hk Hretry Ho Hs Hj. unfold check_decision, bind.
  destruct (_request_after_retries c "GET" ("/api/requests/" +:+ request_id)
              VNone w k Hk Hretry) as [last' ->]. fold req.
  cbn [seq _request_loop].
  rewrite (one_attempt_success _ _ _ _ _ _ resp (VDict d));
    [|by rewrite call_count_after|done|done].
  unfold push; cbn [sent slept call_from_response ret].
  by rewrite <- app_assoc, <- replicate_S_end, take_backoffs.
Qed.

Lemma check_decision_after_retries_witness :
  check_decision
    (client DENY 3 (scripted [ConnectFailed "refused"; json_response 200 (VDict approved_req_1)]))
    "req_1" w0
  = (Ok {| DecisionResult.id := VStr "req_1";
           DecisionResult.status := VStr "approved";
           DecisionResult.decision := VStr "approved";
           DecisionResult.is_decided := true |},
     {| sent := [get_req_1; get_req_1]; slept := [0.5%float] |}).
Proof.
  refine (check_decision_after_retries
            (client DENY 3 (scripted [ConnectFailed "refused";
                                      json_response 200 (VDict approved_req_1)]))
            "req_1" w0 1
            {| Response.status_code := 200; Response.json := inr (VDict approved_req_1) |}
            approved_req_1 _ _ _ _ _).
  - vm_compute. repeat constructor.
  - intros [|i] Hi; [exact I|lia].
  - reflexivity.
  - cbn. lia.
  - reflexivity.
Defined.

(** ** [list_policies]: bodies that are not a list of objects *)

(** A response body that is an object with neither "policies" nor "data"
    (the empty object, say) is decoded to the empty list of policies. *)
Theorem list_policies_no_member (c : AgentGateClient)
    (d : gmap string value) (w w' : world) :
  d !! "policies" = None →
  d !! "data" = None →
  _request c "GET" "/api/policies" VNone w = (Ok (VDict d), w') →
  list_policies c w = (Ok [], w').
Proof.
  intros Hp Hd Hreq. unfold list_policies, bind at 1. rewrite Hreq.
  unfold bind, attr_get, ret.
  by rewrite (dict_get_absent _ _ _ Hp), (dict_get_absent _ _ _ Hd).
Qed.

Lemma list_policies_no_member_witness :
  list_policies (client DENY 3 (always (json_response 200 (VDict ∅)))) w0
  = (Ok [], {| sent := [get_policies]; slept := [] |}).
Proof.
  refine (list_policies_no_member _ ∅ w0 _ _ _ _); reflexivity.
Defined.

Lemma mapM_from_response_bad {T} (f : gmap string value → T)
    (ps : list (gmap string value)) (v : value) (rest : list value) (w : world) :
  (∀ d, v ≠ VDict d) →
  mapM (call_from_response f) ((VDict <$> ps) ++ v :: rest) w
  = (Raise (EOther "AttributeError"
              ("'" +:+ type_name v +:+ "' object has no attribute 'get'")), w).
Proof.
  intros Hv. induction ps as [|p ps IH].
  - cbn [fmap list_fmap app mapM]. unfold bind at 1.
    destruct v; try reflexivity. by destruct (Hv d).
  - change ((VDict <$> p :: ps) ++ v :: rest)
      with (VDict p :: ((VDict <$> ps) ++ v :: rest)).
    cbn [mapM]. unfold bind at 1. rewrite call_from_response_dict.
    unfold bind at 1. by rewrite IH.
Qed.

(** When an element of the policy list is not an object, [list_policies]
    returns no policy at all: it raises the [AttributeError] of the first such
    element, for the bare array and for the "policies" wrapper alike. *)
Theorem list_policies_bad_element (c : AgentGateClient)
    (ps : list (gmap string value)) (v : value) (rest : list value)
    (body : value) (w w' : world) :
  (∀ d, v ≠ VDict d) →
  body = VList ((VDict <$> ps) ++ v :: rest)
  ∨ (∃ d, body = VDict d
          ∧ d !! "policies" = Some (VList ((VDict <$> ps) ++ v :: rest))) →
  _request c "GET" "/api/policies" VNone w = (Ok body, w') →
  list_policies c w
  = (Raise (EOther "AttributeError"
              ("'" +:+ type_name v +:+ "' object has no attribute 'get'")), w').
Proof.
  intros Hv Hshape Hreq. unfold list_policies, bind at 1. rewrite Hreq.
  destruct Hshape as [-> | (d & -> & Hp)].
  - by apply mapM_from_response_bad.
  - unfold bind, attr_get, ret. rewrite (dict_get_present _ _ _ _ Hp).
    cbn [iterate ret]. by apply mapM_from_response_bad.
Qed.

Lemma list_policies_bad_element_witness :
  list_policies (client DENY 3 (always (json_response 200 (VList policies_with_string)))) w0
  = (Raise (EOther "AttributeError" "'str' object has no attribute 'get'"),
     {| sent := [get_policies]; slept := [] |}).
Proof.
  refine (list_policies_bad_element _ [ {[ "id" := VStr "pol_1" ]} ] (VStr "pol_2") []
            (VList policies_with_string) w0 _ _ _ _).
  - intros d. discriminate.
  - left. reflexivity.
  - reflexivity.
Defined.

(** A body that is neither a list nor an object makes [list_policies] raise
    an [AttributeError]; an object whose "policies" member is null, a boolean
    or a number makes it raise a [TypeError]. Neither is an
    [AgentGateError]. *)
Theorem list_policies_not_iterable (c : AgentGateClient)
    (body : value) (w w' : world) :
  _request c "GET" "/api/policies" VNone w = (Ok body, w') →
  ((∀ l, body ≠ VList l) → (∀ d, body ≠ VDict d) →
     list_policies c w
     = (Raise (EOther "AttributeError"
                 ("'" +:+ type_name body +:+ "' object has no attribute 'get'")), w'))
  ∧ (∀ d v, body = VDict d → d !! "policies" = Some v →
       (∀ l, v ≠ VList l) → (∀ s, v ≠ VStr s) → (∀ m, v ≠ VDict m) →
       list_policies c w
       = (Raise (EOther "TypeError"
                   ("'" +:+ type_name v +:+ "' object is not iterable")), w')).
Proof.
  intros Hreq. split.
  - intros Hl Hd. unfold list_policies, bind at 1. rewrite Hreq.
    destruct body; try reflexivity;
      [by destruct (Hl l)|by destruct (Hd d)].
  - intros d v -> Hp Hl Hs Hm.
    unfold list_policies, bind, attr_get, ret. rewrite Hreq.
    cbn beta iota. rewrite (dict_get_present _ _ _ _ Hp).
    destruct v; try reflexivity;
      [by destruct (Hs s)|by destruct (Hl l)|by destruct (Hm d0)].
Qed.

Lemma list_policies_not_iterable_witness :
  list_policies
    (client DENY 3 (always (json_response 200 (VDict {[ "policies" := VNone ]})))) w0
  = (Raise (EOther "TypeError" "'NoneType' object is not iterable"),
     {| sent := [get_policies]; slept := [] |}).
Proof.
  destruct (list_policies_not_iterable
              (client DENY 3 (always (json_response 200 (VDict {[ "policies" := VNone ]}))))
              (VDict {[ "policies" := VNone ]}) w0
              {| sent := [get_policies]; slept := [] |}) as [_ H].
  - reflexivity.
  - apply (H {[ "policies" := VNone ]} VNone); try reflexivity; intros ?; discriminate.
Defined.

(** ** Negative [max_retries] *)

(** A negative [max_retries = n] does not mean no retry: the slice
    [_RETRY_BACKOFFS[:n]] drops the last [-n] back-offs, so under persistently
    retryable outcomes the transport sees [1 + max(0, 3 + n)] calls (three for
    [-1], two for [-2], one from [-3] down). *)
Theorem attempts_negative_max_retries (c : AgentGateClient)
    (method path : string) (json_data : value) (w : world) :
  let req := {| method := method; path := path; json_data := json_data |} in
  (_max_retries c < 0)%Z →
  (∀ n, retryable_outcome (_http c n req)) →
  ∃ r w',
    _request c method path json_data w = (r, w')
    ∧ call_count w' = call_count w + 1 + Z.to_nat (3 + _max_retries c)
    ∧ slept w' = slept w ++ take (Z.to_nat (3 + _max_retries c)) _RETRY_BACKOFFS.
Proof.
  intros req Hn Hretry.
  destruct (_request c method path json_data w) as [r w'] eqn:Hreq.
  exists r, w'. split; [reflexivity|].
  unfold _request in Hreq. fold req in Hreq.
  apply _request_loop_persistent in Hreq
    as (last' & wj & Hsent & Hslept & -> & _); [|done].
  assert (slice_to _RETRY_BACKOFFS (_max_retries c)
          = take (Z.to_nat (3 + _max_retries c)) _RETRY_BACKOFFS) as E.
  { unfold slice_to. destruct (Z.leb_spec 0 (_max_retries c)); [lia|].
    f_equal. cbn [length _RETRY_BACKOFFS]. lia. }
  rewrite E in Hsent, Hslept. rewrite length_take in Hsent.
  split; [|exact Hslept].
  unfold call_count. cbn [push sent].
  rewrite Hsent, !length_app, length_replicate. cbn [length _RETRY_BACKOFFS]. lia.
Qed.

Lemma attempts_negative_max_retries_witness :
  ∃ r w',
    _request (client DENY (-1) unreachable) "GET" "/api/policies" VNone w0 = (r, w')
    ∧ call_count w' = 3
    ∧ slept w' = [0.5%float; 1.0%float].
Proof.
  destruct (attempts_negative_max_retries (client DENY (-1) unreachable)
              "GET" "/api/policies" VNone w0) as (r & w' & Hreq & Hcalls & Hslept).
  - cbn. lia.
  - intros n. exact I.
  - exists r, w'. split; [exact Hreq|]. split; [exact Hcalls|exact Hslept].
Defined.

(** ** A success whose body is not JSON *)

(** When the server answers with a status below 400 and a body that does not
    decode, [_request] raises a connectivity-flagged "Unexpected error: ..."
    without another call, and [request_approval_safe] returns the fallback
    record although the server answered. *)
Theorem undecodable_success_falls_back (c : AgentGateClient) (action : string)
    (params context : option (gmap string value))
    (urgency : Urgency + string) (expires_at : option string) (w : world)
    (resp : Response.t) (msg : string) :
  let req := {| method := "POST"; path := "/api/requests";
                json_data := VDict (request_body action params context urgency expires_at) |} in
  _http c (call_count w) req = Responded resp →
  (Response.status_code resp < 400)%Z →
  Response.json resp = inl msg →
  request_approval c action params context urgency expires_at w
  = (Raise (EAgentGate (connectivity_error ("Unexpected error: " +:+ msg))), push w req)
  ∧ request_approval_safe c action params context urgency expires_at w
    = (Ok (_fallback_request c action params context), push w req).
Proof.
  intros req Ho Hs Hj.
  assert (request_approval c action params context urgency expires_at w
          = (Raise (EAgentGate (connectivity_error ("Unexpected error: " +:+ msg))),
             push w req)) as Hreq.
  { unfold request_approval, bind, _request. fold req.
    change (seq 0 (1 + ?n)) with (0 :: seq 1 n). cbn [_request_loop].
    rewrite (one_attempt_undecodable _ _ _ _ _ _ resp msg); try done.
    intros Hr. destruct (success_not_retried _ Hs) as [_ Hnr]. by destruct Hnr. }
  split; [exact Hreq|]. unfold request_approval_safe. by rewrite Hreq.
Qed.

Lemma undecodable_success_falls_back_witness :
  let c := client DENY 3 (always (Responded ok_not_json)) in
  request_approval c "deploy" None None (inl NORMAL) None w0
  = (Raise (EAgentGate (connectivity_error
              "Unexpected error: Expecting value: line 1 column 1 (char 0)")),
     {| sent := [post_deploy]; slept := [] |})
  ∧ request_approval_safe c "deploy" None None (inl NORMAL) None w0
    = (Ok (_fallback_request c "deploy" None None),
       {| sent := [post_deploy]; slept := [] |}).
Proof.
  cbv zeta.
  refine (undecodable_success_falls_back
            (client DENY 3 (always (Responded ok_not_json)))
            "deploy" None None (inl NORMAL) None w0 ok_not_json
            "Expecting value: line 1 column 1 (char 0)" _ _ _).
  - reflexivity.
  - cbn. lia.
  - reflexivity.
Defined.

(** ** [__init__] *)

Lemma append_nil_l (s : string) : EmptyString +:+ s = s.
Proof. reflexivity. Qed.

Lemma append_cons_l (a : ascii) (s1 s2 : string) :
  String a s1 +:+ s2 = String a (s1 +:+ s2).
Proof. reflexivity. Qed.

Lemma append_nonempty_r (p : string) (ch : ascii) :
  p +:+ String ch EmptyString ≠ EmptyString.
Proof. destruct p; [rewrite append_nil_l|rewrite append_cons_l]; discriminate. Qed.

(** [rstrip] removes trailing copies of the character and nothing else, and
    what it returns does not end with the character. *)
Lemma rstrip_spec (ch : ascii) (s : string) :
  (∃ n, s = rstrip ch s +:+ repeat_char n ch)
  ∧ (∀ p, rstrip ch s ≠ p +:+ String ch EmptyString).
Proof.
  induction s as [|a s [[n IHn] IHend]].
  - split; [by exists 0|]. intros p H. symmetry in H. by apply append_nonempty_r in H.
  - cbn [rstrip]. destruct (rstrip ch s) as [|b r] eqn:Hr.
    + rewrite append_nil_l in IHn.
      destruct (Ascii.eqb_spec a ch) as [->|Hne].
      * split; [exists (S n); rewrite append_nil_l; cbn [repeat_char]; by rewrite <- IHn|].
        intros p H. symmetry in H. by apply append_nonempty_r in H.
      * split; [exists n; rewrite append_cons_l, append_nil_l; by rewrite <- IHn|].
        intros [|a' p] H.
        -- rewrite append_nil_l in H. congruence.
        -- rewrite append_cons_l in H. injection H as _ H.
           symmetry in H. by apply append_nonempty_r in H.
    + split; [exists n; rewrite append_cons_l; by rewrite <- IHn|].
      intros [|a' p] H.
      * rewrite append_nil_l in H. discriminate.
      * rewrite append_cons_l in H. injection H as _ H. by apply (IHend p).
Qed.

Lemma str_or_given (a : option string) (b u : string) :
  a = Some u → u ≠ "" → str_or a b = u.
Proof.
  intros -> Hu. unfold str_or; cbn.
  by destruct (String.eqb_spec u "").
Qed.

Lemma str_or_missing (a : option string) (b : string) :
  a = None ∨ a = Some "" → str_or a b = b.
Proof. by intros [-> | ->]. Qed.

Section InitProperties.
Variable float_of_str : string → option float.

(** Every setting is resolved in the order explicit argument, environment
    variable, built-in default. An explicit URL or API key counts only when it
    is not empty; the stored URL is the chosen one without its trailing
    slashes; the timeout of the environment is read only when no timeout is
    passed; [max_retries] is stored as passed. *)
Theorem init_resolution (environ : gmap string string)
    (url api_key : option string) (timeout : option float)
    (fallback : FallbackBehavior + string) (max_retries : Z) (s : Settings.t) :
  __init__ float_of_str environ url api_key timeout fallback max_retries
    = Initialised s →
  (∀ u, url = Some u → u ≠ "" → Settings._url s = rstrip "/" u)
  ∧ (url = None ∨ url = Some "" →
       Settings._url s
       = rstrip "/" (default "http://localhost:3000" (environ !! "AGENTGATE_URL")))
  ∧ (∀ p, Settings._url s ≠ p +:+ "/")
  ∧ (∀ k, api_key = Some k → k ≠ "" → Settings._api_key s = k)
  ∧ (api_key = None ∨ api_key = Some "" →
       Settings._api_key s = default "" (environ !! "AGENTGATE_API_KEY"))
  ∧ (∀ t, timeout = Some t → Settings._timeout s = t)
  ∧ (timeout = None →
       match environ !! "AGENTGATE_TIMEOUT" with
       | Some raw => float_of_str raw = Some (Settings._timeout s)
       | None => Settings._timeout s = 10.0%float
       end)
  ∧ (∀ fb, fallback = inl fb ∨ fallback = inr (FallbackBehavior_value fb) →
       Settings._fallback s = fb)
  ∧ Settings._max_retries s = max_retries.
Proof.
  unfold __init__. intros H.
  destruct timeout as [t|].
  - destruct fallback as [fb|fs]; [|destruct (FallbackBehavior_of_value fs) eqn:Hfs];
      simplify_eq; cbn.
    all: repeat split; try done.
    all: try (intros u -> Hu; by rewrite (str_or_given _ _ u)).
    all: try (intros Hm; by rewrite (str_or_missing _ _ Hm)).
    all: try (intros p; apply rstrip_spec).
    all: try (intros t' ?; congruence).
    all: intros fb' [?|?]; simplify_eq; try done;
      destruct fb'; vm_compute in Hfs; congruence.
  - destruct (environ !! "AGENTGATE_TIMEOUT") as [raw|] eqn:Henv;
      [destruct (float_of_str raw) as [t|] eqn:Hraw; [|discriminate]|].
    all: destruct fallback as [fb|fs]; [|destruct (FallbackBehavior_of_value fs) eqn:Hfs];
      simplify_eq; cbn.
    all: repeat split; try done.
    all: try (intros u -> Hu; by rewrite (str_or_given _ _ u)).
    all: try (intros Hm; by rewrite (str_or_missing _ _ Hm)).
    all: try (intros p; apply rstrip_spec).
    all: try (by rewrite Hraw).
    all: intros fb' [?|?]; simplify_eq; try done;
      destruct fb'; vm_compute in Hfs; congruence.
Qed.

(** The headers handed to the transport: always the JSON content type, and a
    bearer [Authorization] header exactly when the resolved API key is not
    empty; no other header. *)
Theorem init_headers (environ : gmap string string)
    (url api_key : option string) (timeout : option float)
    (fallback : FallbackBehavior + string) (max_retries : Z) (s : Settings.t) :
  __init__ float_of_str environ url api_key timeout fallback max_retries
    = Initialised s →
  Settings.headers s !! "Content-Type" = Some "application/json"
  ∧ (Settings._api_key s = "" → Settings.headers s !! "Authorization" = None)
  ∧ (Settings._api_key s ≠ "" →
       Settings.headers s !! "Authorization" = Some ("Bearer " +:+ Settings._api_key s))
  ∧ (∀ h, is_Some (Settings.headers s !! h) → h = "Content-Type" ∨ h = "Authorization").
Proof.
  unfold __init__. intros H.
  repeat match type of H with
         | context [match ?x with _ => _ end] => destruct x eqn:?; try discriminate
         end.
  all: injection H as <-; cbn [Settings.headers Settings._api_key].
  all: destruct (String.eqb_spec
                   (str_or api_key (default "" (environ !! "AGENTGATE_API_KEY"))) "")
         as [Hk|Hk]; cbn [negb].
  all: split; [by simplify_map_eq|].
  all: split; [intros ?; by simplify_map_eq|].
  all: split; [intros ?; by simplify_map_eq|].
  all: intros h [v Hh].
  all: repeat (apply lookup_insert_Some in Hh as [[<- _]|[_ Hh]]; [by right|]).
  all: apply lookup_singleton_Some in Hh as [<- _]; by left.
Qed.



End InitProperties.

Lemma init_resolution_witness :
  ∃ s,
    __init__ float_of_30 test_environ None None None (inl DENY) 3 = Initialised s
    ∧ Settings._url s = "http://custom:9999"
    ∧ Settings._api_key s = "env-key"
    ∧ Settings._timeout s = 30.0%float
    ∧ Settings._fallback s = DENY
    ∧ Settings._max_retries s = 3%Z.
Proof.
  destruct (__init__ float_of_30 test_environ None None None (inl DENY) 3)
    as [s|e] eqn:Hinit; [|discriminate].
  destruct (init_resolution float_of_30 test_environ None None None (inl DENY) 3 s Hinit)
    as (_ & Hurl & _ & _ & Hkey & _ & Htime & Hfb & Hmax).
  exists s. split; [reflexivity|].
  split; [apply Hurl; by left|].
  split; [apply Hkey; by left|].
  split.
  { specialize (Htime eq_refl).
    change (Some 30.0%float = Some (Settings._timeout s)) in Htime.
    by injection Htime. }
  split; [apply Hfb; by left|exact Hmax].
Defined.

Lemma init_headers_witness :
  ∃ s,
    __init__ float_of_30 test_environ None (Some "test-key") None (inr "allow") 3
      = Initialised s
    ∧ Settings.headers s !! "Authorization" = Some "Bearer test-key".
Proof.
  destruct (__init__ float_of_30 test_environ None (Some "test-key") None (inr "allow") 3)
    as [s|e] eqn:Hinit; [|discriminate].
  destruct (init_headers float_of_30 test_environ None (Some "test-key") None
              (inr "allow") 3 s Hinit) as (_ & _ & Hauth & _).
  exists s. split; [reflexivity|].
  injection Hinit as <-. apply Hauth. discriminate.
Defined.

(** ** The request body and the whole of [request_approval_safe] *)

Lemma truthy_dict_Some (d : gmap string value) :
  truthy_dict (Some d) = true ↔ d ≠ ∅.
Proof.
  unfold truthy_dict. rewrite negb_true_iff, Nat.eqb_neq.
  by rewrite map_size_empty_iff.
Qed.

(** An argument that is given but empty is left out of the posted body like
    one that is not given: [params={}], [context={}] and [expires_at=""] send
    no member, while a non-empty one is sent as given. *)
Theorem request_body_truthiness (action : string)
    (params context : option (gmap string value))
    (urgency : Urgency + string) (expires_at : option string) :
  let body := request_body action params context urgency expires_at in
  (∀ d, params = Some d → d ≠ ∅ → body !! "params" = Some (VDict d))
  ∧ (params = Some ∅ → body !! "params" = None)
  ∧ (∀ d, context = Some d → d ≠ ∅ → body !! "context" = Some (VDict d))
  ∧ (context = Some ∅ → body !! "context" = None)
  ∧ (∀ s, expires_at = Some s → s ≠ "" → body !! "expiresAt" = Some (VStr s))
  ∧ (expires_at = Some "" → body !! "expiresAt" = None).
Proof.
  cbv zeta. unfold request_body.
  destruct (truthy_dict params) eqn:Hp, (truthy_dict context) eqn:Hc,
    (truthy_str expires_at) eqn:He.
  all: repeat split.
  all: try (intros d -> Hd; apply truthy_dict_Some in Hd).
  all: try (intros s -> Hs; unfold truthy_str in He;
            destruct (String.eqb_spec s ""); cbn in He).
  all: try (intros ->; cbn in *).
  all: try congruence; try discriminate.
  all: by simplify_map_eq.
Qed.

(** After any number [k] of retryable outcomes that the retry budget covers,
    an answer with a status below 400 whose body is a JSON object [d] makes
    [request_approval_safe] return the record decoded from [d], whose [raw]
    is [d] itself, never a fallback record; all [k + 1] calls post the same
    body to "/api/requests". *)
Theorem request_approval_safe_after_retries (c : AgentGateClient) (action : string)
    (params context : option (gmap string value))
    (urgency : Urgency + string) (expires_at : option string)
    (w : world) (k : nat) (resp : Response.t) (d : gmap string value) :
  let req := {| method := "POST"; path := "/api/requests";
                json_data := VDict (request_body action params context urgency expires_at) |} in
  k ≤ length (slice_to _RETRY_BACKOFFS (_max_retries c)) →
  (∀ i, i < k → retryable_outcome (_http c (call_count w + i) req)) →
  _http c (call_count w + k) req = Responded resp →
  (Response.status_code resp < 400)%Z →
  Response.json resp = inr (VDict d) →
  request_approval_safe c action params context urgency expires_at w
  = (Ok (ApprovalRequest.from_response d),
     {| sent := sent w ++ replicate (S k) req;
        slept := slept w ++ take k _RETRY_BACKOFFS |})
  ∧ ApprovalRequest.raw (ApprovalRequest.from_response d) = VDict d.
Proof.
  intros req Hk Hretry Ho Hs Hj. split; [|reflexivity].
  unfold request_approval_safe, request_approval, bind.
  destruct (_request_after_retries c "POST" "/api/requests"
              (VDict (request_body action params context urgency expires_at))
              w k Hk Hretry) as [last' ->]. fold req.
  cbn [seq _request_loop].
  rewrite (one_attempt_success _ _ _ _ _ _ resp (VDict d));
    [|by rewrite call_count_after|done|done].
  unfold push; cbn [sent slept call_from_response ret].
  by rewrite <- app_assoc, <- replicate_S_end, take_backoffs.
Qed.

Lemma request_approval_safe_after_retries_witness :
  request_approval_safe
    (client DENY 3 (scripted [json_response 503 VNone;
                              json_response 200 (VDict approved_req_1)]))
    "deploy" None None (inl NORMAL) None w0
  = (Ok (ApprovalRequest.from_response approved_req_1),
     {| sent := [post_deploy; post_deploy]; slept := [0.5%float] |})
  ∧ ApprovalRequest.raw (ApprovalRequest.from_response approved_req_1)
    = VDict approved_req_1.
Proof.
  refine (request_approval_safe_after_retries
            (client DENY 3 (scripted [json_response 503 VNone;
                                      json_response 200 (VDict approved_req_1)]))
            "deploy" None None (inl NORMAL) None w0 1
            {| Response.status_code := 200; Response.json := inr (VDict approved_req_1) |}
            approved_req_1 _ _ _ _ _).
  - vm_compute. repeat constructor.
  - intros [|i] Hi; [cbn; apply elem_of_RETRYABLE; lia|lia].
  - reflexivity.
  - cbn. lia.
  - reflexivity.
Defined.
